(** * Verification of the baxter_cashier transaction logic

    A shallow embedding of [scripts/baxter_cashier_manipulation/src/cashier.py]:
    the banknote inventory ([Banknote], [BanknotesOnTable]) and the main
    interaction logic of the [Cashier] class.

    Python objects become records, [self] is threaded through a small
    state/exception/trace monad, and every call into ROS, the motion planner
    or the display is recorded as an [Event] of the run.  Python floats
    (timestamps, coordinates) are the kernel's binary64 floats. *)

From Stdlib Require Import ZArith String List Bool Lia Floats.
Import ListNotations.
Local Open Scope string_scope.
Local Open Scope list_scope.
Local Open Scope Z_scope.

(* ================================================================== *)
(** ** Data model *)

(** Modelled from the spec: the [BaxterPose] class ([baxter_pose.py]) is not
    part of the sources at hand.  It is built from seven numbers (three
    translation and four rotation components, see [get_pose_from_space]) and
    carries the timestamp [created] read by [pose_is_outdated]. *)
Record BaxterPose : Type := mkBaxterPose {
  transformation_x : float;
  transformation_y : float;
  transformation_z : float;
  rotation_x : float;
  rotation_y : float;
  rotation_z : float;
  rotation_w : float;
  created : float
}.

Definition set_transformation_x (p : BaxterPose) (v : float) : BaxterPose :=
  mkBaxterPose v (transformation_y p) (transformation_z p)
    (rotation_x p) (rotation_y p) (rotation_z p) (rotation_w p) (created p).

Definition set_transformation_z (p : BaxterPose) (v : float) : BaxterPose :=
  mkBaxterPose (transformation_x p) (transformation_y p) v
    (rotation_x p) (rotation_y p) (rotation_z p) (rotation_w p) (created p).

(** Modelled from the spec: the arms of [MoveItPlanner] ([planner.left_arm],
    [planner.right_arm]); the planner is not part of the sources at hand. *)
Inductive Arm : Type := left_arm | right_arm.

Definition arm_is_left (a : Arm) : bool :=
  match a with left_arm => true | right_arm => false end.

Definition arm_is_right (a : Arm) : bool :=
  match a with left_arm => false | right_arm => true end.

(** [class Banknote]: a pose and the flag [is_available]. *)
Record Banknote : Type := mkBanknote {
  pose : BaxterPose;
  is_available : bool
}.

(** [Banknote.__init__(pose)] *)
Definition Banknote_init (p : BaxterPose) : Banknote := mkBanknote p true.

Definition set_is_available (b : Banknote) (v : bool) : Banknote :=
  mkBanknote (pose b) v.

(** [class BanknotesOnTable] *)
Record BanknotesOnTable : Type := mkBanknotesOnTable {
  _table_side : string;
  _initial_pose : BaxterPose;
  _number_of_remaining_banknotes : Z;
  banknotes : list Banknote
}.

Definition set_banknotes (t : BanknotesOnTable) (bs : list Banknote)
  : BanknotesOnTable :=
  mkBanknotesOnTable (_table_side t) (_initial_pose t)
    (_number_of_remaining_banknotes t) bs.

Module Table.

Definition is_left (t : BanknotesOnTable) : bool :=
  if String.eqb (_table_side t) "left" then true else false.

Definition is_right (t : BanknotesOnTable) : bool :=
  if String.eqb (_table_side t) "right" then true else false.

(** [for banknote in self.banknotes: banknote.is_available = True] *)
Definition reset_availability_for_all_banknotes (t : BanknotesOnTable)
  : BanknotesOnTable :=
  set_banknotes t (map (fun b => set_is_available b true) (banknotes t)).

(** The [for] loop of [get_next_available_banknote], started at the slot
    of position [i]: the first banknote whose flag is set gets the flag
    cleared and is returned, the loop stops there.  The returned object is
    the list's own element (Python returns a reference), so the result
    names the slot by its position. *)
Fixpoint scan_available (bs : list Banknote) (i : nat)
  : option (nat * Banknote) * list Banknote :=
  match bs with
  | [] => (None, [])
  | banknote :: rest =>
      if is_available banknote then
        let banknote' := set_is_available banknote false in
        (Some (i, banknote'), banknote' :: rest)
      else
        let '(r, rest') := scan_available rest (S i) in
        (r, banknote :: rest')
  end.

Definition get_next_available_banknote (t : BanknotesOnTable)
  : option (nat * Banknote) * BanknotesOnTable :=
  let '(r, bs') := scan_available (banknotes t) 0 in
  (r, set_banknotes t bs').

(** [copy.deepcopy(self.banknotes[-1])] followed by
    [new_pose.pose.transformation_x += static_x_to_be_added]. *)
Definition static_x_to_be_added : float := 0x1.999999999999ap-4%float.

Definition shifted_copy (b : Banknote) : Banknote :=
  mkBanknote
    (set_transformation_x (pose b)
       (transformation_x (pose b) + static_x_to_be_added)%float)
    (is_available b).

Fixpoint append_remaining (n : nat) (first : Banknote) (bs : list Banknote)
  : list Banknote :=
  match n with
  | O => bs
  | S n' => append_remaining n' first (bs ++ [shifted_copy (last bs first)])
  end.

(** [range(0, n)] is empty for a negative [n]. *)
Definition _calculate_pose_of_remaining_poses (t : BanknotesOnTable)
  : BanknotesOnTable :=
  set_banknotes t
    (append_remaining (Z.to_nat (_number_of_remaining_banknotes t))
       (Banknote_init (_initial_pose t)) (banknotes t)).

(** [BanknotesOnTable.__init__] *)
Definition init (initial_pose : BaxterPose) (table_side : string)
    (num_of_remaining_banknotes : Z) : BanknotesOnTable :=
  _calculate_pose_of_remaining_poses
    (mkBanknotesOnTable table_side initial_pose num_of_remaining_banknotes
       [Banknote_init initial_pose]).

(** [k] consecutive calls of [get_next_available_banknote] with no reset in
    between: the results in call order and the table left behind. *)
Fixpoint take_calls (k : nat) (t : BanknotesOnTable)
  : list (option (nat * Banknote)) * BanknotesOnTable :=
  match k with
  | O => ([], t)
  | S k' =>
      let '(r, t') := get_next_available_banknote t in
      let '(rs, t'') := take_calls k' t' in
      (r :: rs, t'')
  end.

(** The slots handed out by a run of calls. *)
Definition slot_of (r : option (nat * Banknote)) : option nat :=
  option_map fst r.

Fixpoint slots (rs : list (option (nat * Banknote))) : list nat :=
  match rs with
  | [] => []
  | Some (i, _) :: rs' => i :: slots rs'
  | None :: rs' => slots rs'
  end.

(** Availability of the slot at position [i]. *)
Definition available_at (bs : list Banknote) (i : nat) : bool :=
  match nth_error bs i with
  | Some b => is_available b
  | None => false
  end.

(** Number of banknotes still flagged available. *)
Definition count_available (bs : list Banknote) : nat :=
  length (filter is_available bs).

(** The list with the banknote of slot [i] replaced by [b]. *)
Definition with_slot (bs : list Banknote) (i : nat) (b : Banknote)
  : list Banknote :=
  firstn i bs ++ b :: skipn (S i) bs.

End Table.

(** [pose_is_outdated], the local function of [interact_with_customer];
    [now] is the value of [time.time()] at the call. *)
Definition pose_is_outdated (now : float) (p : BaxterPose) : bool :=
  (3 <? now - created p)%float.

(* ================================================================== *)
(** ** Effects: the state of [self], exceptions and the trace of calls *)

(** Calls that leave the [Cashier] object: motion planner, display, ROS
    services, console, the animation thread, and the stores to the one field
    that the animation thread reads. *)
Inductive Event : Type :=
| EvMoveToPosition (p : BaxterPose) (a : Arm)
| EvOpenGripper
| EvCloseGripper
| EvMoveHandToHeadCamera
| EvLeaveBanknoteToTheTable
| EvSetNeutralPositionOfLimb
| EvSetActiveHand (a : Arm)
| EvIsPoseReachableByArm (p : BaxterPose) (a : Arm)
| EvSleep (seconds : Z)
| EvShowImage (image_path : string)
| EvPrint (text : string)
| EvPrintAmount (amount : Z)
| EvPrintServiceCallFailed
| EvWaitForService (name : string)
| EvGetUserPose (user_number : Z) (body_part : string)
| EvRecogniseBanknote (camera_topic : string)
| EvThreadStart
| EvStoreTaskCompleted (v : bool).

(** The exceptions the modelled code can raise by itself. *)
Inductive Exn : Type :=
| TypeError
| UnboundLocalError.

Inductive Outcome (A : Type) : Type :=
| Returned (a : A)
| Raised (e : Exn)
| OutOfFuel.

Arguments Returned {A} a.
Arguments Raised {A} e.
Arguments OutOfFuel {A}.

(** The fields of [Cashier] that [__init__] sets and the methods update. *)
Record Cashier : Type := mkCashier {
  _money_recognition_camera_topic : string;
  amount_due : Z;
  customer_last_pose : option (BaxterPose * Arm);
  banknotes_table_left : BanknotesOnTable;
  banknotes_table_right : BanknotesOnTable;
  banknote_recognition_task_completed : bool
}.

Definition set_amount_due (s : Cashier) (v : Z) : Cashier :=
  mkCashier (_money_recognition_camera_topic s) v (customer_last_pose s)
    (banknotes_table_left s) (banknotes_table_right s)
    (banknote_recognition_task_completed s).

Definition set_customer_last_pose (s : Cashier)
    (v : option (BaxterPose * Arm)) : Cashier :=
  mkCashier (_money_recognition_camera_topic s) (amount_due s) v
    (banknotes_table_left s) (banknotes_table_right s)
    (banknote_recognition_task_completed s).

Definition set_banknotes_table_left (s : Cashier) (t : BanknotesOnTable)
  : Cashier :=
  mkCashier (_money_recognition_camera_topic s) (amount_due s)
    (customer_last_pose s) t (banknotes_table_right s)
    (banknote_recognition_task_completed s).

Definition set_banknotes_table_right (s : Cashier) (t : BanknotesOnTable)
  : Cashier :=
  mkCashier (_money_recognition_camera_topic s) (amount_due s)
    (customer_last_pose s) (banknotes_table_left s) t
    (banknote_recognition_task_completed s).

Definition set_banknote_recognition_task_completed (s : Cashier) (v : bool)
  : Cashier :=
  mkCashier (_money_recognition_camera_topic s) (amount_due s)
    (customer_last_pose s) (banknotes_table_left s)
    (banknotes_table_right s) v.

(** A method body: from the object before the call to the outcome, the
    object afterwards and the events of the call, oldest first. *)
Definition M (A : Type) : Type := Cashier -> Outcome A * Cashier * list Event.

Definition ret {A : Type} (a : A) : M A := fun s => (Returned a, s, []).

Definition bind {A B : Type} (m : M A) (f : A -> M B) : M B :=
  fun s =>
    match m s with
    | (Returned a, s1, t1) =>
        match f a s1 with
        | (o, s2, t2) => (o, s2, t1 ++ t2)
        end
    | (Raised e, s1, t1) => (Raised e, s1, t1)
    | (OutOfFuel, s1, t1) => (OutOfFuel, s1, t1)
    end.

Definition raise {A : Type} (e : Exn) : M A := fun s => (Raised e, s, []).

Definition out_of_fuel {A : Type} : M A := fun s => (OutOfFuel, s, []).

Definition emit (e : Event) : M unit := fun s => (Returned tt, s, [e]).

Definition get : M Cashier := fun s => (Returned s, s, []).

Definition modify (f : Cashier -> Cashier) : M unit :=
  fun s => (Returned tt, f s, []).

Declare Scope cashier_scope.
Delimit Scope cashier_scope with cashier.

Notation "x <- m ;; k" := (bind m (fun x => k))
  (at level 61, m at next level, right associativity) : cashier_scope.
Notation "m ;; k" := (bind m (fun _ => k))
  (at level 61, right associativity) : cashier_scope.
Notation "' pat <- m ;; k" :=
  (bind m (fun x => match x with pat => k end))
  (at level 61, pat pattern, m at next level, right associativity)
  : cashier_scope.

Local Open Scope cashier_scope.

Definition outcome_of {A : Type} (r : Outcome A * Cashier * list Event)
  : Outcome A := fst (fst r).

Definition self_of {A : Type} (r : Outcome A * Cashier * list Event)
  : Cashier := snd (fst r).

Definition events_of {A : Type} (r : Outcome A * Cashier * list Event)
  : list Event := snd r.

(* ================================================================== *)
(** ** What the collaborators answer *)

(** The reply of the [get_user_pose] service: [transformation] and
    [rotation], unpacked into three and four numbers. *)
Record UserPose : Type := mkUserPose {
  transformation : float * float * float;
  rotation : float * float * float * float
}.

(** Everything one pass through the loop body can ask of the outside:
    the two [get_user_pose] replies and the [recognise_banknote] reply
    ([None]: the call raised [rospy.ServiceException]), the clock values
    read when the two poses are built and when each is tested by
    [pose_is_outdated], and the planner's reachability answer. *)
Record Inputs : Type := mkInputs {
  reply_right_hand : option UserPose;
  reply_left_hand : option UserPose;
  clock_left_pose : float;
  clock_right_pose : float;
  clock_left_check : float;
  clock_right_check : float;
  is_pose_reachable_by_arm : BaxterPose -> Arm -> bool;
  reply_banknote_amount : option Z
}.

(** [BaxterPose(x1, y1, z1, x2, y2, z2, w)] built from a reply at clock
    value [now]. *)
Definition pose_of_reply (r : UserPose) (now : float) : BaxterPose :=
  let '(x1, y1, z1) := transformation r in
  let '(x2, y2, z2, w) := rotation r in
  mkBaxterPose x1 y1 z1 x2 y2 z2 w now.

(* ================================================================== *)
(** ** The [Cashier] methods *)

(** The object [__init__] leaves behind, given what the two calibration
    dialogues of [set_banknotes_on_table] produced (the recorded pose and
    the number typed in, per side). *)
Definition Cashier_init (left_pose : BaxterPose) (left_num : Z)
    (right_pose : BaxterPose) (right_num : Z) : Cashier :=
  mkCashier "/cameras/head_camera/image" 3 None
    (Table.init left_pose "left" left_num)
    (Table.init right_pose "right" right_num)
    false.

Definition show_image_to_baxters_head_screen (image_path : string) : M unit :=
  emit (EvShowImage image_path) ;;
  emit (EvSleep 1).

Definition show_eyes_normal : M unit :=
  show_image_to_baxters_head_screen "normal_eyes.png".

Definition show_eyes_focusing : M unit :=
  show_image_to_baxters_head_screen "looking_eyes.png".

Definition show_eyes_focusing_left : M unit :=
  show_image_to_baxters_head_screen "looking_left_eyes.png".

Definition show_eyes_focusing_right : M unit :=
  show_image_to_baxters_head_screen "looking_right_eyes.png".

(** The list [funcs] of [make_eyes_animated_reading_banknote]. *)
Definition funcs : list (M unit) :=
  [show_eyes_focusing;
   show_eyes_focusing_right;
   show_eyes_focusing_left;
   show_eyes_focusing_right;
   show_eyes_focusing_left].

(** [for func in funcs: if self.banknote_recognition_task_completed == False:
    func()].  The method runs on its own thread while the caller stores to
    the field, so the value found by the [i]-th test is [observed i], not
    the field of the thread's own copy of the state. *)
Fixpoint run_funcs (fs : list (M unit)) (observed : nat -> bool) (i : nat)
  : M unit :=
  match fs with
  | [] => ret tt
  | func :: rest =>
      (if Bool.eqb (observed i) false then func else ret tt) ;;
      run_funcs rest observed (S i)
  end.

Definition make_eyes_animated_reading_banknote (observed : nat -> bool)
  : M unit :=
  run_funcs funcs observed 0.

(** [threading.Thread(target=function).start()]: the caller goes on at
    once. *)
Definition run_nonblocking : M unit := emit EvThreadStart.

(** [get_banknote_value]: the value returned is [None] when the service
    call raised. *)
Definition get_banknote_value (i : Inputs) : M (option Z) :=
  modify (fun s => set_banknote_recognition_task_completed s false) ;;
  emit (EvStoreTaskCompleted false) ;;
  emit (EvWaitForService "recognise_banknote") ;;
  s <- get ;;
  emit (EvRecogniseBanknote (_money_recognition_camera_topic s)) ;;
  match reply_banknote_amount i with
  | Some banknote_amount =>
      modify (fun s => set_banknote_recognition_task_completed s true) ;;
      emit (EvStoreTaskCompleted true) ;;
      ret (Some banknote_amount)
  | None =>
      emit EvPrintServiceCallFailed ;;
      modify (fun s => set_banknote_recognition_task_completed s true) ;;
      emit (EvStoreTaskCompleted true) ;;
      ret None
  end.

(** Python's [int(v)] on a value that is an integer or [None]. *)
Definition py_int (v : option Z) : M Z :=
  match v with
  | Some z => ret z
  | None => raise TypeError
  end.

(** [v != -1] and [v == 5] on a value that is an integer or [None]. *)
Definition py_ne_minus_one (v : option Z) : bool :=
  match v with
  | Some z => negb (z =? -1)
  | None => true
  end.

Definition py_eq_five (v : option Z) : bool :=
  match v with
  | Some z => z =? 5
  | None => false
  end.

Definition take_money_from_customer (i : Inputs) (pose : BaxterPose)
    (arm : Arm) : M unit :=
  emit (EvMoveToPosition pose arm) ;;
  emit EvOpenGripper ;;
  emit (EvSleep 1) ;;
  emit EvCloseGripper ;;
  emit EvMoveHandToHeadCamera ;;
  run_nonblocking ;;
  banknote_value <- get_banknote_value i ;;
  (if py_ne_minus_one banknote_value then
     let image :=
       if py_eq_five banknote_value then "five_bill_recognised.png"
       else "one_bill_recognised.png" in
     show_image_to_baxters_head_screen image ;;
     v <- py_int banknote_value ;;
     modify (fun s => set_amount_due s (amount_due s - v)) ;;
     modify (fun s => set_customer_last_pose s (Some (pose, arm))) ;;
     emit EvLeaveBanknoteToTheTable ;;
     emit (EvSleep 1)
   else
     show_image_to_baxters_head_screen "unable_to_recognise.png") ;;
  show_eyes_normal ;;
  emit EvSetNeutralPositionOfLimb.

(** [banknote_above = copy.deepcopy(banknote)] with
    [banknote_above.pose.transformation_z += 0.10]. *)
Definition banknote_above (b : Banknote) : Banknote :=
  mkBanknote
    (set_transformation_z (pose b)
       (transformation_z (pose b) + 0x1.999999999999ap-4)%float)
    (is_available b).

Definition pick_banknote_from_table (arm : Arm) : M unit :=
  emit (EvSetActiveHand arm) ;;
  emit EvOpenGripper ;;
  s <- get ;;
  banknote <-
    (if arm_is_left arm then
       let '(r, t) :=
         Table.get_next_available_banknote (banknotes_table_left s) in
       modify (fun s => set_banknotes_table_left s t) ;;
       ret r
     else
       let '(r, t) :=
         Table.get_next_available_banknote (banknotes_table_right s) in
       modify (fun s => set_banknotes_table_right s t) ;;
       ret r) ;;
  match banknote with
  | Some (_, b) =>
      emit (EvMoveToPosition (pose (banknote_above b)) arm) ;;
      emit (EvMoveToPosition (pose b) arm) ;;
      emit EvCloseGripper ;;
      emit EvSetNeutralPositionOfLimb
  | None =>
      emit (EvPrint "No available banknotes on the table...")
  end.

Definition money_to_give_back : Z := 1.

Definition give_money_to_customer : M unit :=
  s <- get ;;
  match customer_last_pose s with
  | None => raise TypeError
  | Some (customer_hand_pose, baxter_arm) =>
      pick_banknote_from_table baxter_arm ;;
      emit (EvMoveToPosition customer_hand_pose baxter_arm) ;;
      emit (EvSleep 1) ;;
      emit EvOpenGripper ;;
      modify (fun s => set_amount_due s (amount_due s + money_to_give_back)) ;;
      s' <- get ;;
      if amount_due s' >=? 0 then emit EvSetNeutralPositionOfLimb
      else ret tt
  end.

(** [get_pose_from_space]: a [ServiceException] is caught and printed, and
    the names [left_hand], [right_hand] that the failed statement and those
    after it would have bound stay unbound; reading an unbound local
    raises [UnboundLocalError]. *)
Definition get_pose_from_space (i : Inputs)
  : M (BaxterPose * BaxterPose) :=
  emit (EvWaitForService "get_user_pose") ;;
  '(left_hand, right_hand) <-
    (emit (EvGetUserPose 1 "right_hand") ;;
     match reply_right_hand i with
     | None => emit EvPrintServiceCallFailed ;; ret (None, None)
     | Some l =>
         emit (EvGetUserPose 1 "left_hand") ;;
         match reply_left_hand i with
         | None => emit EvPrintServiceCallFailed ;; ret (Some l, None)
         | Some r => ret (Some l, Some r)
         end
     end) ;;
  match left_hand with
  | None => raise UnboundLocalError
  | Some l =>
      let left_hand_pose := pose_of_reply l (clock_left_pose i) in
      match right_hand with
      | None => raise UnboundLocalError
      | Some r =>
          let right_hand_pose := pose_of_reply r (clock_right_pose i) in
          ret (left_hand_pose, right_hand_pose)
      end
  end.

Section WithPose.

(** Modelled from the spec: [BaxterPose.is_empty], the test for the
    sentinel pose meaning that nothing was detected; its code is not part
    of the sources at hand, so it stays a parameter. *)
Variable is_empty : BaxterPose -> bool.

Definition pose_is_reachable (i : Inputs) (pose : BaxterPose)
    (side : string) : M bool :=
  let arm := if String.eqb side "left" then left_arm else right_arm in
  if negb (is_empty pose) then
    emit (EvIsPoseReachableByArm pose arm) ;;
    ret (is_pose_reachable_by_arm i pose arm)
  else ret false.

(** One pass through the body of [while self.amount_due != 0]. *)
Definition loop_body (i : Inputs) : M unit :=
  s <- get ;;
  emit (EvPrintAmount (amount_due s)) ;;
  if amount_due s <? 0 then give_money_to_customer
  else
    '(left_pose, right_pose) <- get_pose_from_space i ;;
    if pose_is_outdated (clock_left_check i) left_pose
       && pose_is_outdated (clock_right_check i) right_pose
    then ret tt
    else
      left_ok <- pose_is_reachable i left_pose "right" ;;
      if left_ok then take_money_from_customer i left_pose right_arm
      else
        right_ok <- pose_is_reachable i right_pose "left" ;;
        if right_ok then take_money_from_customer i right_pose left_arm
        else emit (EvPrint "Wasn't able to move hand to goal position").

(** The [while] loop; pass number [k] is served by [inputs k], and [fuel]
    bounds the number of passes. *)
Fixpoint while_amount_due (fuel : nat) (inputs : nat -> Inputs) (k : nat)
  : M unit :=
  s <- get ;;
  if amount_due s =? 0 then ret tt
  else
    match fuel with
    | O => out_of_fuel
    | S fuel' =>
        loop_body (inputs k) ;;
        while_amount_due fuel' inputs (S k)
    end.

Definition interact_with_customer (fuel : nat) (inputs : nat -> Inputs)
  : M unit :=
  show_eyes_normal ;;
  modify (fun s => set_banknotes_table_left s
            (Table.reset_availability_for_all_banknotes
               (banknotes_table_left s))) ;;
  modify (fun s => set_banknotes_table_right s
            (Table.reset_availability_for_all_banknotes
               (banknotes_table_right s))) ;;
  while_amount_due fuel inputs 0.

End WithPose.

(* ================================================================== *)
(** ** Reading a trace *)

(** The [move_to_position] commands of a trace, in order. *)
Fixpoint moves (evs : list Event) : list (BaxterPose * Arm) :=
  match evs with
  | [] => []
  | EvMoveToPosition p a :: rest => (p, a) :: moves rest
  | _ :: rest => moves rest
  end.

(** The amounts printed at the start of the loop passes. *)
Fixpoint printed_amounts (evs : list Event) : list Z :=
  match evs with
  | [] => []
  | EvPrintAmount z :: rest => z :: printed_amounts rest
  | _ :: rest => printed_amounts rest
  end.

(** The images sent to the head screen. *)
Fixpoint shown_images (evs : list Event) : list string :=
  match evs with
  | [] => []
  | EvShowImage path :: rest => path :: shown_images rest
  | _ :: rest => shown_images rest
  end.

(** Hand-pose sensing and reachability queries. *)
Definition is_sensing (e : Event) : bool :=
  match e with
  | EvGetUserPose _ _ => true
  | EvIsPoseReachableByArm _ _ => true
  | EvWaitForService name => String.eqb name "get_user_pose"
  | _ => false
  end.

(** Gripper and arm commands. *)
Definition is_actuation (e : Event) : bool :=
  match e with
  | EvMoveToPosition _ _ | EvOpenGripper | EvCloseGripper
  | EvMoveHandToHeadCamera | EvLeaveBanknoteToTheTable
  | EvSetNeutralPositionOfLimb | EvSetActiveHand _ => true
  | _ => false
  end.

(** The value of [banknote_recognition_task_completed] at the moment the
    animation thread is started, for a trace that begins with the field
    holding [flag]. *)
Fixpoint flag_at_thread_start (flag : bool) (evs : list Event)
  : option bool :=
  match evs with
  | [] => None
  | EvThreadStart :: _ => Some flag
  | EvStoreTaskCompleted v :: rest => flag_at_thread_start v rest
  | _ :: rest => flag_at_thread_start flag rest
  end.

(** The event right before the start of the animation thread. *)
Fixpoint event_before_thread_start (prev : option Event) (evs : list Event)
  : option Event :=
  match evs with
  | [] => None
  | EvThreadStart :: _ => prev
  | e :: rest => event_before_thread_start (Some e) rest
  end.

(** The event right after the start of the animation thread. *)
Fixpoint event_after_thread_start (evs : list Event) : option Event :=
  match evs with
  | [] => None
  | EvThreadStart :: rest => hd_error rest
  | _ :: rest => event_after_thread_start rest
  end.

(** What [take_money_from_customer] does up to and including the
    recognition call. *)
Definition collect_prefix (s : Cashier) (pose : BaxterPose) (arm : Arm)
  : list Event :=
  [EvMoveToPosition pose arm; EvOpenGripper; EvSleep 1; EvCloseGripper;
   EvMoveHandToHeadCamera; EvThreadStart; EvStoreTaskCompleted false;
   EvWaitForService "recognise_banknote";
   EvRecogniseBanknote (_money_recognition_camera_topic s)].

(** The table [pick_banknote_from_table] takes from, by arm. *)
Definition table_of (s : Cashier) (arm : Arm) : BanknotesOnTable :=
  if arm_is_left arm then banknotes_table_left s
  else banknotes_table_right s.

Definition set_table_of (s : Cashier) (arm : Arm) (t : BanknotesOnTable)
  : Cashier :=
  if arm_is_left arm then set_banknotes_table_left s t
  else set_banknotes_table_right s t.

(** A result with the events [evs] put in front of its own. *)
Definition after {A : Type} (evs : list Event)
    (r : Outcome A * Cashier * list Event)
  : Outcome A * Cashier * list Event :=
  (outcome_of r, self_of r, evs ++ events_of r).

(** The object after the two resets at the start of
    [interact_with_customer]. *)
Definition reset_tables (s : Cashier) : Cashier :=
  set_banknotes_table_right
    (set_banknotes_table_left s
       (Table.reset_availability_for_all_banknotes (banknotes_table_left s)))
    (Table.reset_availability_for_all_banknotes (banknotes_table_right s)).

(** The amounts printed by [n] dispenses that settle a debt of [n]. *)
Fixpoint countdown (n : nat) : list Z :=
  match n with
  | O => []
  | S m => (- Z.of_nat (S m)) :: countdown m
  end.

(** The five steps of the animation with the position of their test. *)
Definition animation_steps : list (nat * string) :=
  [(0%nat, "looking_eyes.png");
   (1%nat, "looking_right_eyes.png");
   (2%nat, "looking_left_eyes.png");
   (3%nat, "looking_right_eyes.png");
   (4%nat, "looking_left_eyes.png")].

(* ================================================================== *)
(** ** The animation thread beside its caller *)

(** The value of [banknote_recognition_task_completed] after the stores of
    a stretch of the caller's trace, starting from [flag]. *)
Fixpoint flag_after (flag : bool) (evs : list Event) : bool :=
  match evs with
  | [] => flag
  | EvStoreTaskCompleted v :: rest => flag_after v rest
  | _ :: rest => flag_after flag rest
  end.

(** What the caller does after it has started the thread. *)
Fixpoint events_after_thread_start (evs : list Event) : list Event :=
  match evs with
  | [] => []
  | EvThreadStart :: rest => rest
  | _ :: rest => events_after_thread_start rest
  end.

(** The value a test of the thread reads when it runs after the caller has
    got [m] events past the start of the thread; [flag] is the field at the
    beginning of the caller's trace [evs]. *)
Definition flag_read_by_thread (flag : bool) (evs : list Event) (m : nat)
  : bool :=
  match flag_at_thread_start flag evs with
  | Some at_start =>
      flag_after at_start (firstn m (events_after_thread_start evs))
  | None => flag
  end.

(** The animation run beside a collect: [s] is the object when the collect
    begins, [evs] the caller's events of that collect, and the [j]-th test
    of the thread runs when the caller is [pace j] events past the start of
    the thread. *)
Definition animation_beside (s : Cashier) (evs : list Event)
    (pace : nat -> nat) : list Event :=
  events_of
    (make_eyes_animated_reading_banknote
       (fun j =>
          flag_read_by_thread (banknote_recognition_task_completed s) evs
            (pace j))
       s).

(* ================================================================== *)
(** ** Sample data for the closed instances *)

Definition sample_pose (x : float) (now : float) : BaxterPose :=
  mkBaxterPose x 0 0 0 0 0 1 now.

Definition sample_reply (x : float) : UserPose :=
  mkUserPose (x, 0%float, 0%float) (0%float, 0%float, 0%float, 1%float).

(** A pose counts as empty when its three translation components are 0. *)
Definition sample_is_empty (p : BaxterPose) : bool :=
  ((transformation_x p =? 0) && (transformation_y p =? 0)
   && (transformation_z p =? 0))%float.

(** The object after [__init__] with one calibrated banknote and two more
    on each side. *)
Definition sample_cashier : Cashier :=
  Cashier_init (sample_pose 1 0) 2 (sample_pose 2 0) 2.

(** Both hands seen at clock 100 and tested at clock 101, everything
    reachable, recognition answering [amount]. *)
Definition sample_inputs (amount : option Z) : Inputs :=
  mkInputs (Some (sample_reply 3)) (Some (sample_reply 4))
    100 100 101 101 (fun _ _ => true) amount.

(** The object after [__init__] with a single banknote on each side. *)
Definition sample_short_cashier : Cashier :=
  Cashier_init (sample_pose 1 0) 0 (sample_pose 2 0) 0.

(** [sample_short_cashier] after two passes of the loop with a banknote of
    5 recognised: one collect and one dispense. *)
Definition sample_owing : Cashier :=
  self_of (interact_with_customer sample_is_empty 2
             (fun _ => sample_inputs (Some 5)) sample_short_cashier).

(** As [sample_inputs], with nothing detected for the customer's left
    hand. *)
Definition sample_inputs_right_only : Inputs :=
  mkInputs (Some (sample_reply 0)) (Some (sample_reply 4))
    100 100 101 101 (fun _ _ => true) (Some 1).

(** The customer's left hand seen at clock 90 and its right hand at clock
    100, both tested at clock 101; everything reachable. *)
Definition sample_inputs_old_left : Inputs :=
  mkInputs (Some (sample_reply 3)) (Some (sample_reply 4))
    90 100 101 101 (fun _ _ => true) (Some 1).

(** [sample_cashier] with a debt of two units and the hand-over pose of a
    collect by the right arm. *)
Definition sample_debtor : Cashier :=
  set_customer_last_pose (set_amount_due sample_cashier (-2))
    (Some (sample_pose 3 100, right_arm)).

(** As [sample_inputs], with the pose service failing. *)
Definition sample_inputs_no_pose : Inputs :=
  mkInputs None None 100 100 101 101 (fun _ _ => true) (Some 1).

(* ================================================================== *)
(** ** Further vocabulary for the properties *)

(** The row of banknotes that starts at [b] and goes on with [n] shifted
    copies, each made from the one before. *)
Fixpoint row_from (n : nat) (b : Banknote) : list Banknote :=
  b :: match n with
       | O => []
       | S n' => row_from n' (Table.shifted_copy b)
       end.

Definition opposite (a : Arm) : Arm :=
  match a with left_arm => right_arm | right_arm => left_arm end.

(** Number of gripper closings in a trace. *)
Fixpoint closes (evs : list Event) : nat :=
  match evs with
  | [] => O
  | EvCloseGripper :: rest => S (closes rest)
  | _ :: rest => closes rest
  end.

(** Whether the message of an empty table was printed. *)
Fixpoint table_runs_dry (evs : list Event) : bool :=
  match evs with
  | [] => false
  | EvPrint text :: rest =>
      String.eqb text "No available banknotes on the table..."
      || table_runs_dry rest
  | _ :: rest => table_runs_dry rest
  end.

(** The decision of a sensing pass once the two poses are known. *)
Inductive Action : Type :=
| Wait
| CollectWith (p : BaxterPose) (a : Arm).

Definition select_action (is_empty : BaxterPose -> bool) (i : Inputs)
    (left_pose right_pose : BaxterPose) : Action :=
  if pose_is_outdated (clock_left_check i) left_pose
     && pose_is_outdated (clock_right_check i) right_pose
  then Wait
  else if negb (is_empty left_pose)
          && is_pose_reachable_by_arm i left_pose right_arm
  then CollectWith left_pose right_arm
  else if negb (is_empty right_pose)
          && is_pose_reachable_by_arm i right_pose left_arm
  then CollectWith right_pose left_arm
  else Wait.

(** A pass that cannot change the ledger: both poses arrive, and either
    nothing is collected or the recogniser answers -1. *)
Definition idle_pass (is_empty : BaxterPose -> bool) (i : Inputs) : Prop :=
  exists l r,
    reply_right_hand i = Some l /\ reply_left_hand i = Some r /\
    (select_action is_empty i
       (pose_of_reply l (clock_left_pose i))
       (pose_of_reply r (clock_right_pose i)) = Wait \/
     reply_banknote_amount i = Some (-1)).

(** The first [n] turns of [while True: cashier.interact_with_customer()];
    turn [j] is served by [inputs j]. *)
Fixpoint sessions (is_empty : BaxterPose -> bool) (n : nat) (fuel : nat)
    (inputs : nat -> nat -> Inputs) (j : nat) : M unit :=
  match n with
  | O => ret tt
  | S n' =>
      interact_with_customer is_empty fuel (inputs j) ;;
      sessions is_empty n' fuel inputs (S j)
  end.

(* ================================================================== *)
(** ** Calibration: [set_banknotes_on_table] and [__init__] *)

(** What the calibration does outside the object: console output, the
    prompts of [raw_input], the reading of the end-effector pose, the
    start-up of the robot and of the planner, and planner commands. *)
Inductive SetupEvent : Type :=
| SetupPrint (text : string)
| SetupRawInput (prompt : string)
| SetupGetEndEffectorCurrentPose (side : string)
| SetupEnableRobot
| SetupCreatePlanner
| SetupPlanner (e : Event).

Definition calibration_rule : string :=
  "==============================================================".

Definition number_prompt : string :=
  "2. Number of REMAINING banknotes on this side of                             the table? : ".

(** [arm = self.planner.left_arm if side == "left" else
    self.planner.right_arm] *)
Definition arm_of_side (side : string) : Arm :=
  if String.eqb side "left" then left_arm else right_arm.

(** The events up to and including the second prompt. *)
Definition calibration_dialogue (side : string) : list SetupEvent :=
  [SetupPrint calibration_rule;
   SetupPrint
     (String.append " Calibrating poses of banknotes of the table's side: "
        side);
   SetupPrint calibration_rule;
   SetupPrint
     (String.append "1. Move Baxter's "
        (String.append side " hand above the first banknote"));
   SetupRawInput "Press ENTER to set the pose...";
   SetupGetEndEffectorCurrentPose side;
   SetupRawInput number_prompt].

(** The visit of [banknotes_on_table.banknotes[1:]]. *)
Definition calibration_visit (arm : Arm) (bs : list Banknote)
  : list SetupEvent :=
  flat_map
    (fun banknote =>
       [SetupPlanner (EvMoveToPosition (pose banknote) arm);
        SetupPlanner (EvSleep 1)])
    bs.

(** [set_banknotes_on_table(side)]: [initial_pose] is what
    [get_end_effector_current_pose] answers, [typed] the number read by
    [int(raw_input(...))], [None] when that raised.  The result is the
    table returned, if any, and the events. *)
Definition set_banknotes_on_table (side : string) (initial_pose : BaxterPose)
    (typed : option Z) : option BanknotesOnTable * list SetupEvent :=
  let arm := arm_of_side side in
  match typed with
  | None => (None, calibration_dialogue side)
  | Some num =>
      let banknotes_on_table := Table.init initial_pose side num in
      (Some banknotes_on_table,
       calibration_dialogue side ++
       calibration_visit arm (tl (banknotes banknotes_on_table)) ++
       [SetupPlanner (EvSetActiveHand arm);
        SetupPlanner EvSetNeutralPositionOfLimb])
  end.

(** [Cashier.__init__]: the robot is enabled, the planner created, and the
    left side is calibrated before the right one; a calibration that raises
    ends the construction. *)
Definition Cashier_setup (left_pose : BaxterPose) (left_typed : option Z)
    (right_pose : BaxterPose) (right_typed : option Z)
  : option Cashier * list SetupEvent :=
  let start := [SetupEnableRobot; SetupCreatePlanner] in
  match set_banknotes_on_table "left" left_pose left_typed with
  | (None, evs_left) => (None, start ++ evs_left)
  | (Some banknotes_table_left, evs_left) =>
      match set_banknotes_on_table "right" right_pose right_typed with
      | (None, evs_right) => (None, start ++ evs_left ++ evs_right)
      | (Some banknotes_table_right, evs_right) =>
          (Some (mkCashier "/cameras/head_camera/image" 3 None
                   banknotes_table_left banknotes_table_right false),
           start ++ evs_left ++ evs_right)
      end
  end.

(** The planner moves of a calibration trace. *)
Fixpoint setup_moves (evs : list SetupEvent) : list (BaxterPose * Arm) :=
  match evs with
  | [] => []
  | SetupPlanner (EvMoveToPosition p a) :: rest => (p, a) :: setup_moves rest
  | _ :: rest => setup_moves rest
  end.

(* ================================================================== *)
(** ** The banknote recogniser ([banknote_recogniser.py]) *)

Module Recogniser.

(** What one turn of the loop of [detect] finds: the clock read by the loop
    test, and whether the transforms of the two markers can be looked up
    (a failed lookup raises one of the three caught [tf] exceptions). *)
Record Look : Type := mkLook {
  clock : float;
  marker_5 : bool;
  marker_1 : bool
}.

(** What [detect] returns: the bare integer of [return 1], or a
    [RecogniseBanknoteResponse] built from the value of [found]. *)
Inductive Reply : Type :=
| BareInt (z : Z)
| RecogniseBanknoteResponse (found : option Z).

Inductive RecEvent : Type :=
| RecLookupTransform (marker : string)
| RecPrintException (marker : string)
| RecSleep.

Definition timeout : float := 5%float.

Definition is_None (found : option Z) : bool :=
  match found with
  | None => true
  | Some _ => false
  end.

(** The [while] loop of [detect]; turn number [k] is served by [looks k],
    [fuel] bounds the number of turns, and the result is [None] when the
    fuel runs out. *)
Fixpoint detect_loop (fuel : nat) (timeout_start : float)
    (looks : nat -> Look) (k : nat) (found : option Z)
  : option Reply * list RecEvent :=
  if is_None found || (clock (looks k) <? timeout_start + timeout)%float
  then
    match fuel with
    | O => (None, [])
    | S fuel' =>
        let '(found', evs_5) :=
          if marker_5 (looks k)
          then (Some 5, [RecLookupTransform "ar_marker_5"])
          else (found, [RecLookupTransform "ar_marker_5";
                        RecPrintException "ar_marker_5"]) in
        if marker_1 (looks k)
        then (Some (BareInt 1), evs_5 ++ [RecLookupTransform "ar_marker_1"])
        else
          let '(reply, evs) :=
            detect_loop fuel' timeout_start looks (S k) found' in
          (reply,
           evs_5 ++
           [RecLookupTransform "ar_marker_1";
            RecPrintException "ar_marker_1"; RecSleep] ++ evs)
    end
  else (Some (RecogniseBanknoteResponse found), []).

(** [detect]: [found = -1], [timeout_start = time.time()], then the loop. *)
Definition detect (fuel : nat) (timeout_start : float)
    (looks : nat -> Look) : option Reply * list RecEvent :=
  detect_loop fuel timeout_start looks 0 (Some (-1)).

(** The loop test of turn [k] with [found] bound to an integer. *)
Definition before_deadline (timeout_start : float) (looks : nat -> Look)
    (k : nat) : bool :=
  (clock (looks k) <? timeout_start + timeout)%float.

(** Whether marker 5 was seen in one of the turns [k], ..., [k + n - 1]. *)
Fixpoint seen_5 (looks : nat -> Look) (k n : nat) : bool :=
  match n with
  | O => false
  | S n' => marker_5 (looks k) || seen_5 looks (S k) n'
  end.

Definition sleeps (evs : list RecEvent) : nat :=
  length (filter (fun e => match e with RecSleep => true | _ => false end)
            evs).

(** The clock advancing by a second per turn from [timeout_start = 100],
    marker 5 in view from the third turn on, marker 1 never. *)
Definition sample_looks (k : nat) : Look :=
  mkLook (100 + of_uint63 (Uint63.of_Z (Z.of_nat k)))%float
    (2 <=? k)%nat false.

End Recogniser.

(* ================================================================== *)
(** ** The banknote inventory *)

Module TableFacts.
Import Table.

Lemma scan_available_shift (bs : list Banknote) (i : nat) :
  scan_available bs (S i) =
  (option_map (fun r => (S (fst r), snd r)) (fst (scan_available bs i)),
   snd (scan_available bs i)).
Proof.
  revert i; induction bs as [|b rest IH]; intros i; simpl; [reflexivity|].
  destruct (is_available b); simpl; [reflexivity|].
  rewrite (IH (S i)).
  destruct (scan_available rest (S i)) as [r rest']; simpl.
  reflexivity.
Qed.

(** What one scan returns and leaves behind. *)
Lemma scan_available_found (bs : list Banknote) :
  forall i b bs',
    scan_available bs 0 = (Some (i, b), bs') ->
    exists b0,
      nth_error bs i = Some b0 /\ is_available b0 = true /\
      (forall m, (m < i)%nat -> available_at bs m = false) /\
      b = set_is_available b0 false /\
      bs' = with_slot bs i b.
Proof.
  induction bs as [|a rest IH]; intros i b bs' H; simpl in H; [discriminate|].
  destruct (is_available a) eqn:Ha.
  - inversion H; subst; clear H.
    exists a; repeat split; auto.
    intros m Hm; lia.
  - rewrite scan_available_shift in H.
    destruct (scan_available rest 0) as [[[j c]|] rest'] eqn:Hs;
      simpl in H; inversion H; subst; clear H.
    destruct (IH j b rest' eq_refl) as (b0 & Hn & Hb0 & Hlt & Hb & Hr).
    exists b0; repeat split; auto.
    + intros [|m] Hm; unfold available_at; simpl; [exact Ha|].
      apply Hlt; lia.
    + unfold with_slot; simpl. f_equal. exact Hr.
Qed.

Lemma scan_available_none (bs : list Banknote) :
  forall i bs',
    scan_available bs i = (None, bs') ->
    bs' = bs /\ forall m, available_at bs m = false.
Proof.
  induction bs as [|a rest IH]; intros i bs' H; simpl in H.
  - inversion H; split; auto. intros [|m]; reflexivity.
  - destruct (is_available a) eqn:Ha; [discriminate|].
    destruct (scan_available rest (S i)) as [r rest'] eqn:Hs.
    inversion H; subst; clear H.
    destruct (IH _ _ Hs) as [-> Hall]. split; auto.
    intros [|m]; unfold available_at; simpl; [exact Ha|apply Hall].
Qed.

Lemma available_at_with_slot (bs : list Banknote) (i : nat) (b0 : Banknote) :
  nth_error bs i = Some b0 ->
  forall m,
    available_at (with_slot bs i (set_is_available b0 false)) m =
    if Nat.eqb m i then false else available_at bs m.
Proof.
  revert i; induction bs as [|a rest IH]; intros i Hn m.
  - destruct i; discriminate.
  - destruct i as [|i]; simpl in Hn.
    + inversion Hn; subst. destruct m; reflexivity.
    + destruct m as [|m]; [reflexivity|].
      exact (IH i Hn m).
Qed.

Lemma count_available_with_slot (bs : list Banknote) (i : nat)
    (b0 : Banknote) :
  nth_error bs i = Some b0 -> is_available b0 = true ->
  S (count_available (with_slot bs i (set_is_available b0 false))) =
  count_available bs.
Proof.
  unfold count_available, with_slot.
  revert i; induction bs as [|a rest IH]; intros i Hn Hb.
  - destruct i; discriminate.
  - destruct i as [|i]; simpl in Hn.
    + inversion Hn; subst. simpl. rewrite Hb. reflexivity.
    + specialize (IH i Hn Hb).
      change (firstn (S i) (a :: rest)) with (a :: firstn i rest).
      change (skipn (S (S i)) (a :: rest)) with (skipn (S i) rest).
      set (tl := skipn (S i) rest) in *.
      simpl. destruct (is_available a); simpl; lia.
Qed.

Lemma count_available_zero (bs : list Banknote) :
  (forall m, available_at bs m = false) -> count_available bs = 0%nat.
Proof.
  unfold count_available.
  induction bs as [|a rest IH]; intros H; [reflexivity|].
  simpl. pose proof (H 0%nat) as H0. unfold available_at in H0; simpl in H0.
  rewrite H0. apply IH. intros m. exact (H (S m)).
Qed.

Lemma count_available_le_length (bs : list Banknote) :
  (count_available bs <= length bs)%nat.
Proof. unfold count_available. apply filter_length_le. Qed.

Lemma scan_available_zero (bs : list Banknote) :
  count_available bs = 0%nat -> scan_available bs 0 = (None, bs).
Proof.
  intros H.
  destruct (scan_available bs 0) as [[[i b]|] bs'] eqn:Hs.
  - destruct (scan_available_found _ _ _ _ Hs) as (b0 & Hn & Hb0 & _ & _ & Hr).
    pose proof (count_available_with_slot _ _ _ Hn Hb0). lia.
  - destruct (scan_available_none _ _ _ Hs) as [-> _]. reflexivity.
Qed.

Lemma get_next_found (t t' : BanknotesOnTable) (i : nat) (b : Banknote) :
  get_next_available_banknote t = (Some (i, b), t') ->
  exists b0,
    nth_error (banknotes t) i = Some b0 /\ is_available b0 = true /\
    (forall m, (m < i)%nat -> available_at (banknotes t) m = false) /\
    b = set_is_available b0 false /\
    t' = set_banknotes t (with_slot (banknotes t) i b).
Proof.
  unfold get_next_available_banknote.
  destruct (scan_available (banknotes t) 0) as [r bs'] eqn:Hs.
  intros H; inversion H; subst; clear H.
  destruct (scan_available_found _ _ _ _ Hs) as (b0 & Hn & Hb0 & Hlt & Hb & Hr).
  exists b0; subst bs'; auto 6.
Qed.

Lemma get_next_none (t t' : BanknotesOnTable) :
  get_next_available_banknote t = (None, t') ->
  t' = t /\ forall m, available_at (banknotes t) m = false.
Proof.
  unfold get_next_available_banknote.
  destruct (scan_available (banknotes t) 0) as [r bs'] eqn:Hs.
  intros H; inversion H; subst; clear H.
  destruct (scan_available_none _ _ _ Hs) as [-> Hall].
  split; [destruct t; reflexivity | exact Hall].
Qed.

Lemma length_with_slot (bs : list Banknote) (i : nat) (b b0 : Banknote) :
  nth_error bs i = Some b0 -> length (with_slot bs i b) = length bs.
Proof.
  unfold with_slot.
  revert i; induction bs as [|a rest IH]; intros i Hn.
  - destruct i; discriminate.
  - destruct i as [|i]; simpl in Hn; [reflexivity|].
    change (firstn (S i) (a :: rest)) with (a :: firstn i rest).
    change (skipn (S (S i)) (a :: rest)) with (skipn (S i) rest).
    simpl. f_equal. exact (IH i Hn).
Qed.

(** One call: the flags only go down, the number of slots stays. *)
Lemma get_next_step (t : BanknotesOnTable) :
  let r := fst (get_next_available_banknote t) in
  let t' := snd (get_next_available_banknote t) in
  length (banknotes t') = length (banknotes t) /\
  count_available (banknotes t') = pred (count_available (banknotes t)) /\
  (forall m, available_at (banknotes t') m = true ->
             available_at (banknotes t) m = true) /\
  (forall i b, r = Some (i, b) ->
     available_at (banknotes t) i = true /\
     available_at (banknotes t') i = false).
Proof.
  destruct (get_next_available_banknote t) as [[[i b]|] t'] eqn:Hg; simpl.
  - destruct (get_next_found _ _ _ _ Hg) as (b0 & Hn & Hb0 & Hlt & Hb & Ht').
    subst b t'; simpl.
    pose proof (available_at_with_slot _ _ _ Hn) as Hav.
    repeat split.
    + exact (length_with_slot _ _ _ _ Hn).
    + pose proof (count_available_with_slot _ _ _ Hn Hb0). lia.
    + intros m Hm. rewrite Hav in Hm.
      destruct (Nat.eqb m i); [discriminate | exact Hm].
    + inversion H; subst. unfold available_at. rewrite Hn. exact Hb0.
    + inversion H; subst. rewrite Hav, Nat.eqb_refl. reflexivity.
  - destruct (get_next_none _ _ Hg) as [-> Hall].
    repeat split; auto; try discriminate.
    rewrite (count_available_zero _ Hall). reflexivity.
Qed.

Lemma take_calls_S (k : nat) (t : BanknotesOnTable) :
  take_calls (S k) t =
  (fst (get_next_available_banknote t)
     :: fst (take_calls k (snd (get_next_available_banknote t))),
   snd (take_calls k (snd (get_next_available_banknote t)))).
Proof.
  simpl. destruct (get_next_available_banknote t) as [r t'].
  simpl. destruct (take_calls k t') as [rs t'']. reflexivity.
Qed.

Lemma take_calls_state (k : nat) :
  forall t,
    length (banknotes (snd (take_calls k t))) = length (banknotes t) /\
    count_available (banknotes (snd (take_calls k t))) =
      (count_available (banknotes t) - k)%nat /\
    (forall m, available_at (banknotes (snd (take_calls k t))) m = true ->
               available_at (banknotes t) m = true).
Proof.
  induction k as [|k IH]; intros t.
  - simpl. repeat split; auto. lia.
  - rewrite take_calls_S; simpl.
    destruct (get_next_step t) as (Hl & Hc & Hm & _).
    destruct (IH (snd (get_next_available_banknote t))) as (Hl' & Hc' & Hm').
    repeat split.
    + congruence.
    + rewrite Hc', Hc. lia.
    + intros m H. apply Hm, Hm', H.
Qed.

Lemma slots_available (k : nat) :
  forall t i,
    In i (slots (fst (take_calls k t))) ->
    available_at (banknotes t) i = true.
Proof.
  induction k as [|k IH]; intros t i Hin.
  - destruct Hin.
  - rewrite take_calls_S in Hin; simpl in Hin.
    destruct (get_next_step t) as (_ & _ & Hm & Hr).
    destruct (fst (get_next_available_banknote t)) as [[j b]|] eqn:Hf.
    + destruct Hin as [<- | Hin].
      * exact (proj1 (Hr j b eq_refl)).
      * apply Hm, (IH _ _ Hin).
    + apply Hm, (IH _ _ Hin).
Qed.

Lemma slots_NoDup (k : nat) :
  forall t, NoDup (slots (fst (take_calls k t))).
Proof.
  induction k as [|k IH]; intros t.
  - constructor.
  - rewrite take_calls_S; simpl.
    destruct (get_next_step t) as (_ & _ & _ & Hr).
    destruct (fst (get_next_available_banknote t)) as [[j b]|] eqn:Hf.
    + constructor; [|apply IH].
      intros Hin. apply slots_available in Hin.
      destruct (Hr j b eq_refl) as [_ Hoff]. congruence.
    + apply IH.
Qed.

Lemma get_next_exhausted (t : BanknotesOnTable) :
  count_available (banknotes t) = 0%nat ->
  get_next_available_banknote t = (None, t).
Proof.
  intros H. unfold get_next_available_banknote.
  rewrite (scan_available_zero _ H). destruct t; reflexivity.
Qed.

Lemma scan_available_prefix (u : list Banknote) (x : Banknote)
    (rest : list Banknote) :
  Forall (fun b => is_available b = false) u ->
  is_available x = true ->
  forall i,
    scan_available (u ++ x :: rest) i =
    (Some ((i + length u)%nat, set_is_available x false),
     u ++ set_is_available x false :: rest).
Proof.
  intros Hu Hx. induction Hu as [|a u Ha Hu IH]; intros i; simpl.
  - rewrite Hx, Nat.add_0_r. reflexivity.
  - rewrite Ha, (IH (S i)), Nat.add_succ_r. reflexivity.
Qed.

(** With the first slots taken and all later ones available, the calls
    hand out the later slots one after the other. *)
Lemma take_calls_in_order (a : list Banknote) :
  forall u t,
    banknotes t = u ++ a ->
    Forall (fun b => is_available b = false) u ->
    Forall (fun b => is_available b = true) a ->
    map slot_of (fst (take_calls (length a) t)) =
    map Some (seq (length u) (length a)).
Proof.
  induction a as [|x a IH]; intros u t Hb Hu Ha; [reflexivity|].
  inversion Ha as [|? ? Hx Ha']; subst.
  change (length (x :: a)) with (S (length a)).
  rewrite take_calls_S.
  unfold get_next_available_banknote at 1 2.
  rewrite Hb, (scan_available_prefix _ _ a Hu Hx 0). simpl.
  f_equal.
  rewrite (IH (u ++ [set_is_available x false])).
  - rewrite length_app, Nat.add_1_r. reflexivity.
  - simpl. rewrite <- app_assoc. reflexivity.
  - apply Forall_app; split; [exact Hu|]. repeat constructor.
  - exact Ha'.
Qed.

Lemma reset_all_available (t : BanknotesOnTable) :
  Forall (fun b => is_available b = true)
    (banknotes (reset_availability_for_all_banknotes t)).
Proof.
  unfold reset_availability_for_all_banknotes; simpl.
  apply Forall_map. apply Forall_forall. intros b _. reflexivity.
Qed.

Lemma reset_length (t : BanknotesOnTable) :
  length (banknotes (reset_availability_for_all_banknotes t)) =
  length (banknotes t).
Proof.
  unfold reset_availability_for_all_banknotes; simpl. apply length_map.
Qed.

Lemma append_remaining_length (n : nat) (first : Banknote) :
  forall bs, length (append_remaining n first bs) = (length bs + n)%nat.
Proof.
  induction n as [|n IH]; intros bs; simpl; [lia|].
  rewrite IH, length_app. simpl. lia.
Qed.

End TableFacts.

(** C7.  Inventory monotonicity.  For every table [t] with [N] slots:
    (1) a call of [get_next_available_banknote] scans in insertion order: it
    returns the first slot whose flag is set, with the flag cleared in the
    table and every other slot untouched, and returns nothing (leaving the
    table as it is) exactly when no slot is available;
    (2) over any number of calls without a reset no slot is returned twice;
    (3) after [N] or more calls the next call returns nothing;
    (4) a reset makes every slot available again, and the [N] calls after it
    hand out the slots 0, 1, ..., N-1 in this order. *)
Theorem get_next_available_banknote_never_repeats (t : BanknotesOnTable) :
  let N := length (banknotes t) in
  (forall i b t',
     Table.get_next_available_banknote t = (Some (i, b), t') ->
     exists b0,
       nth_error (banknotes t) i = Some b0 /\ is_available b0 = true /\
       (forall m, (m < i)%nat ->
                  Table.available_at (banknotes t) m = false) /\
       b = set_is_available b0 false /\
       t' = set_banknotes t (Table.with_slot (banknotes t) i b)) /\
  (forall t',
     Table.get_next_available_banknote t = (None, t') ->
     t' = t /\ forall m, Table.available_at (banknotes t) m = false) /\
  (forall k, NoDup (Table.slots (fst (Table.take_calls k t)))) /\
  (forall k, (N <= k)%nat ->
     Table.get_next_available_banknote (snd (Table.take_calls k t)) =
     (None, snd (Table.take_calls k t))) /\
  (forall k,
     let t' := Table.reset_availability_for_all_banknotes
                 (snd (Table.take_calls k t)) in
     Forall (fun b => is_available b = true) (banknotes t') /\
     map Table.slot_of (fst (Table.take_calls N t')) =
     map Some (seq 0 N)).
Proof.
  intros N. split; [|split; [|split; [|split]]].
  - intros i b t' H. exact (TableFacts.get_next_found _ _ _ _ H).
  - intros t' H. exact (TableFacts.get_next_none _ _ H).
  - intros k. apply TableFacts.slots_NoDup.
  - intros k Hk. apply TableFacts.get_next_exhausted.
    destruct (TableFacts.take_calls_state k t) as (_ & Hc & _).
    pose proof (TableFacts.count_available_le_length (banknotes t)).
    rewrite Hc. subst N. lia.
  - intros k t'. split; [apply TableFacts.reset_all_available|].
    destruct (TableFacts.take_calls_state k t) as (Hl & _ & _).
    assert (HN : N = length (banknotes t')).
    { subst t' N. rewrite TableFacts.reset_length. symmetry; exact Hl. }
    rewrite HN.
    apply (TableFacts.take_calls_in_order (banknotes t') [] t').
    + reflexivity.
    + constructor.
    + apply TableFacts.reset_all_available.
Qed.

(* ================================================================== *)
(** ** The freshness test *)

Lemma SFcompare_swap (x y : spec_float) :
  SFcompare y x = option_map CompOpp (SFcompare x y).
Proof.
  destruct x as [s1|s1| |s1 m1 e1], y as [s2|s2| |s2 m2 e2];
    try reflexivity;
    try (destruct s1; reflexivity);
    try (destruct s2; reflexivity);
    try (destruct s1, s2; reflexivity).
  unfold SFcompare.
  rewrite (Z.compare_antisym e1 e2).
  change (Pos.compare_cont Eq m2 m1)
    with (Pos.compare_cont (CompOpp Eq) m2 m1).
  rewrite <- (Pos.compare_cont_antisym m1 m2 Eq).
  destruct s1, s2; simpl; try reflexivity;
    destruct (e1 ?= e2)%Z; simpl; try reflexivity;
    destruct (Pos.compare_cont Eq m1 m2); reflexivity.
Qed.

(** [x < y] holds exactly when comparing [y] with [x] answers "greater". *)
Lemma ltb_compare (x y : float) :
  (x <? y)%float = true <-> (y ?= x)%float = FGt.
Proof.
  rewrite ltb_spec, compare_spec, (SFcompare_swap (Prim2SF x) (Prim2SF y)).
  unfold SFltb.
  destruct (SFcompare (Prim2SF x) (Prim2SF y)) as [[]|]; simpl;
    split; congruence.
Qed.

(** C6.  Staleness threshold.  For every pose and clock value the test
    answers true exactly when the age [now - created] compares as greater
    than 3; an age that compares equal to 3, in particular the age 3 itself,
    is not outdated. *)
Theorem pose_is_outdated_strictly_above_three
    (now : float) (p : BaxterPose) :
  (pose_is_outdated now p = true <->
   (now - created p ?= 3)%float = FGt) /\
  ((now - created p ?= 3)%float = FEq -> pose_is_outdated now p = false) /\
  ((now - created p)%float = 3%float -> pose_is_outdated now p = false).
Proof.
  unfold pose_is_outdated.
  pose proof (ltb_compare 3 (now - created p)) as H.
  split; [exact H|]. split.
  - intros He. destruct (3 <? now - created p)%float; [|reflexivity].
    rewrite (proj1 H eq_refl) in He. discriminate.
  - intros ->. reflexivity.
Qed.

Example pose_is_outdated_boundary :
  let p := mkBaxterPose 0 0 0 0 0 0 1 100 in
  pose_is_outdated 103 p = false /\
  pose_is_outdated 0x1.9c00000000001p+6 p = true /\
  pose_is_outdated 102 p = false /\
  pose_is_outdated 200 p = true.
Proof. vm_compute. repeat split. Qed.

(* ================================================================== *)
(** ** Collecting money *)

Lemma take_money_valid (i : Inputs) (pose : BaxterPose) (arm : Arm)
    (s : Cashier) (v : Z) :
  reply_banknote_amount i = Some v -> v <> -1 ->
  take_money_from_customer i pose arm s =
  (Returned tt,
   set_customer_last_pose
     (set_amount_due (set_banknote_recognition_task_completed s true)
        (amount_due s - v))
     (Some (pose, arm)),
   collect_prefix s pose arm ++
   [EvStoreTaskCompleted true;
    EvShowImage (if v =? 5 then "five_bill_recognised.png"
                 else "one_bill_recognised.png");
    EvSleep 1; EvLeaveBanknoteToTheTable; EvSleep 1;
    EvShowImage "normal_eyes.png"; EvSleep 1;
    EvSetNeutralPositionOfLimb]).
Proof.
  intros Hr Hv.
  unfold take_money_from_customer, get_banknote_value.
  rewrite Hr.
  cbv [bind emit modify get ret run_nonblocking py_ne_minus_one py_eq_five
       py_int show_image_to_baxters_head_screen show_eyes_normal app].
  apply Z.eqb_neq in Hv. rewrite Hv. simpl.
  reflexivity.
Qed.

Lemma take_money_sentinel (i : Inputs) (pose : BaxterPose) (arm : Arm)
    (s : Cashier) :
  reply_banknote_amount i = Some (-1) ->
  take_money_from_customer i pose arm s =
  (Returned tt,
   set_banknote_recognition_task_completed s true,
   collect_prefix s pose arm ++
   [EvStoreTaskCompleted true;
    EvShowImage "unable_to_recognise.png"; EvSleep 1;
    EvShowImage "normal_eyes.png"; EvSleep 1;
    EvSetNeutralPositionOfLimb]).
Proof.
  intros Hr.
  unfold take_money_from_customer, get_banknote_value.
  rewrite Hr. reflexivity.
Qed.

Lemma take_money_service_exception (i : Inputs) (pose : BaxterPose)
    (arm : Arm) (s : Cashier) :
  reply_banknote_amount i = None ->
  take_money_from_customer i pose arm s =
  (Raised TypeError,
   set_banknote_recognition_task_completed s true,
   collect_prefix s pose arm ++
   [EvPrintServiceCallFailed; EvStoreTaskCompleted true;
    EvShowImage "one_bill_recognised.png"; EvSleep 1]).
Proof.
  intros Hr.
  unfold take_money_from_customer, get_banknote_value.
  rewrite Hr. reflexivity.
Qed.

(** Every collect commands exactly one move: to the given pose, with the
    given arm. *)
Lemma take_money_moves (i : Inputs) (pose : BaxterPose) (arm : Arm)
    (s : Cashier) :
  moves (events_of (take_money_from_customer i pose arm s)) = [(pose, arm)].
Proof.
  destruct (reply_banknote_amount i) as [v|] eqn:Hr.
  - destruct (Z.eq_dec v (-1)) as [->|Hv].
    + rewrite (take_money_sentinel _ _ _ _ Hr). reflexivity.
    + rewrite (take_money_valid _ _ _ _ _ Hr Hv). reflexivity.
  - rewrite (take_money_service_exception _ _ _ _ Hr). reflexivity.
Qed.

(** C1.  A failed recognition call is not handled like the sentinel.  When
    the [recognise_banknote] call raises, [get_banknote_value] returns
    [None], which passes the test against -1: the "one bill recognised"
    image is shown, no failure image is, and the collect ends in a
    [TypeError] at [int(None)]; [amount_due] keeps its value.  With the
    sentinel -1 the same collect returns normally after showing the failure
    image. *)
Theorem take_money_service_exception_is_not_the_sentinel
    (i : Inputs) (pose : BaxterPose) (arm : Arm) (s : Cashier) :
  reply_banknote_amount i = None ->
  let r := take_money_from_customer i pose arm s in
  outcome_of r = Raised TypeError /\
  amount_due (self_of r) = amount_due s /\
  shown_images (events_of r) = ["one_bill_recognised.png"] /\
  forall i',
    reply_banknote_amount i' = Some (-1) ->
    let r' := take_money_from_customer i' pose arm s in
    outcome_of r' = Returned tt /\
    amount_due (self_of r') = amount_due s /\
    shown_images (events_of r') =
      ["unable_to_recognise.png"; "normal_eyes.png"].
Proof.
  intros Hr r. subst r.
  rewrite (take_money_service_exception _ _ _ _ Hr).
  do 3 (split; [reflexivity|]).
  intros i' Hr'. cbv zeta.
  rewrite (take_money_sentinel _ _ _ _ Hr').
  repeat split.
Qed.

Lemma take_money_service_exception_witness :
  let i := sample_inputs None in
  let r :=
    take_money_from_customer i (sample_pose 3 100) right_arm sample_cashier in
  outcome_of r = Raised TypeError /\
  amount_due (self_of r) = 3 /\
  shown_images (events_of r) = ["one_bill_recognised.png"].
Proof.
  pose proof (take_money_service_exception_is_not_the_sentinel
                (sample_inputs None) (sample_pose 3 100) right_arm
                sample_cashier eq_refl) as H.
  cbv zeta in H. destruct H as (H1 & H2 & H3 & _).
  cbv zeta. repeat split; assumption.
Defined.

(** The recognised value is subtracted only when the reply is not -1. *)
Lemma take_money_ledger (i : Inputs) (pose : BaxterPose) (arm : Arm)
    (s : Cashier) (v : Z) :
  reply_banknote_amount i = Some v ->
  amount_due (self_of (take_money_from_customer i pose arm s)) =
  if v =? -1 then amount_due s else amount_due s - v.
Proof.
  intros Hr. destruct (Z.eqb_spec v (-1)) as [->|Hv].
  - rewrite (take_money_sentinel _ _ _ _ Hr). reflexivity.
  - rewrite (take_money_valid _ _ _ _ _ Hr Hv). reflexivity.
Qed.

(* ================================================================== *)
(** ** Giving change *)

Lemma pick_banknote_found (arm : Arm) (s : Cashier) (k : nat)
    (b : Banknote) (t' : BanknotesOnTable) :
  Table.get_next_available_banknote (table_of s arm) = (Some (k, b), t') ->
  pick_banknote_from_table arm s =
  (Returned tt, set_table_of s arm t',
   [EvSetActiveHand arm; EvOpenGripper;
    EvMoveToPosition (pose (banknote_above b)) arm;
    EvMoveToPosition (pose b) arm;
    EvCloseGripper; EvSetNeutralPositionOfLimb]).
Proof.
  unfold table_of, set_table_of, pick_banknote_from_table.
  destruct arm; simpl; intros H;
    cbv [bind emit get modify ret]; rewrite H; reflexivity.
Qed.

Lemma pick_banknote_none (arm : Arm) (s : Cashier) :
  Table.count_available (banknotes (table_of s arm)) = 0%nat ->
  pick_banknote_from_table arm s =
  (Returned tt, s,
   [EvSetActiveHand arm; EvOpenGripper;
    EvPrint "No available banknotes on the table..."]).
Proof.
  unfold table_of, pick_banknote_from_table.
  destruct arm; simpl; intros H;
    cbv [bind emit get modify ret];
    rewrite (TableFacts.get_next_exhausted _ H);
    destruct s; reflexivity.
Qed.

(** A pick always returns, changes nothing but the table of its arm, and
    neither prints an amount nor senses. *)
Lemma pick_banknote_returns (arm : Arm) (s : Cashier) :
  let r := pick_banknote_from_table arm s in
  outcome_of r = Returned tt /\
  amount_due (self_of r) = amount_due s /\
  customer_last_pose (self_of r) = customer_last_pose s /\
  printed_amounts (events_of r) = [] /\
  forallb (fun e => negb (is_sensing e)) (events_of r) = true /\
  shown_images (events_of r) = [].
Proof.
  destruct (Table.get_next_available_banknote (table_of s arm))
    as [[[k b]|] t'] eqn:Hg.
  - rewrite (pick_banknote_found _ _ _ _ _ Hg).
    unfold set_table_of; destruct arm; repeat split.
  - destruct (TableFacts.get_next_none _ _ Hg) as [_ Hall].
    rewrite (pick_banknote_none _ _ (TableFacts.count_available_zero _ Hall)).
    repeat split.
Qed.

Lemma bind_returned {A B : Type} (m : M A) (f : A -> M B) (s : Cashier)
    {s1 : Cashier} {a : A} {t1 : list Event} :
  m s = (Returned a, s1, t1) -> bind m f s = after t1 (f a s1).
Proof.
  intros H. unfold bind, after, outcome_of, self_of, events_of. rewrite H.
  destruct (f a s1) as [[o s2] t2]. reflexivity.
Qed.

Lemma bind_raised {A B : Type} (m : M A) (f : A -> M B) (s s1 : Cashier)
    (e : Exn) (t1 : list Event) :
  m s = (Raised e, s1, t1) -> bind m f s = (Raised e, s1, t1).
Proof. intros H. unfold bind. rewrite H. reflexivity. Qed.

Lemma after_after {A : Type} (xs ys : list Event)
    (r : Outcome A * Cashier * list Event) :
  after xs (after ys r) = after (xs ++ ys) r.
Proof.
  unfold after, outcome_of, self_of, events_of; simpl.
  rewrite app_assoc. reflexivity.
Qed.

Lemma events_of_after {A : Type} (xs : list Event)
    (r : Outcome A * Cashier * list Event) :
  events_of (after xs r) = xs ++ events_of r.
Proof. reflexivity. Qed.

Lemma result_eta {A : Type} (r : Outcome A * Cashier * list Event) :
  r = (outcome_of r, self_of r, events_of r).
Proof. destruct r as [[o s] t]. reflexivity. Qed.

Lemma printed_amounts_app (xs ys : list Event) :
  printed_amounts (xs ++ ys) = printed_amounts xs ++ printed_amounts ys.
Proof.
  induction xs as [|e xs IH]; [reflexivity|].
  destruct e; simpl; rewrite IH; reflexivity.
Qed.

Lemma moves_app (xs ys : list Event) :
  moves (xs ++ ys) = moves xs ++ moves ys.
Proof.
  induction xs as [|e xs IH]; [reflexivity|].
  destruct e; simpl; rewrite IH; reflexivity.
Qed.

(** A dispense with a cached hand-over pose: the pick, the delivery, and
    the ledger raised by one whatever the pick found. *)
Lemma give_money_run (s : Cashier) (p : BaxterPose) (a : Arm) :
  customer_last_pose s = Some (p, a) ->
  give_money_to_customer s =
  (Returned tt,
   set_amount_due (self_of (pick_banknote_from_table a s))
     (amount_due s + 1),
   events_of (pick_banknote_from_table a s) ++
   [EvMoveToPosition p a; EvSleep 1; EvOpenGripper] ++
   (if amount_due s + 1 >=? 0 then [EvSetNeutralPositionOfLimb] else [])).
Proof.
  intros Hc.
  destruct (pick_banknote_returns a s) as (Ho & Ha & _).
  unfold give_money_to_customer. cbv [bind get]. rewrite Hc.
  destruct (pick_banknote_from_table a s) as [[o s1] t1].
  unfold outcome_of, self_of, events_of in *; simpl in *. subst o.
  cbv [emit modify money_to_give_back]. simpl. rewrite Ha.
  destruct (amount_due s + 1 >=? 0); reflexivity.
Qed.

Lemma give_money_without_pose (s : Cashier) :
  customer_last_pose s = None ->
  give_money_to_customer s = (Raised TypeError, s, []).
Proof.
  intros Hc. unfold give_money_to_customer. cbv [bind get]. rewrite Hc.
  reflexivity.
Qed.

Lemma give_money_no_sensing (s : Cashier) :
  forallb (fun e => negb (is_sensing e))
    (events_of (give_money_to_customer s)) = true.
Proof.
  destruct (customer_last_pose s) as [[p a]|] eqn:Hc.
  - rewrite (give_money_run _ _ _ Hc).
    destruct (pick_banknote_returns a s) as (_ & _ & _ & _ & Hs & _).
    unfold events_of at 1; simpl snd.
    rewrite !forallb_app, Hs.
    destruct (amount_due s + 1 >=? 0); reflexivity.
  - rewrite (give_money_without_pose _ Hc). reflexivity.
Qed.

(** C2.  A dispense that finds no banknote still books one.  With the
    hand-over pose cached and no banknote available on the side of the
    cached arm, [pick_banknote_from_table] only prints its message, and
    [give_money_to_customer] goes on: it moves to the customer, opens the
    gripper and raises [amount_due] by one, although nothing was picked. *)
Theorem give_money_books_a_banknote_never_picked
    (s : Cashier) (p : BaxterPose) (a : Arm) :
  customer_last_pose s = Some (p, a) ->
  Table.count_available (banknotes (table_of s a)) = 0%nat ->
  give_money_to_customer s =
  (Returned tt,
   set_amount_due s (amount_due s + 1),
   [EvSetActiveHand a; EvOpenGripper;
    EvPrint "No available banknotes on the table...";
    EvMoveToPosition p a; EvSleep 1; EvOpenGripper] ++
   (if amount_due s + 1 >=? 0 then [EvSetNeutralPositionOfLimb] else [])).
Proof.
  intros Hc Hn.
  rewrite (give_money_run _ _ _ Hc), (pick_banknote_none _ _ Hn).
  reflexivity.
Qed.

Lemma give_money_books_witness :
  give_money_to_customer sample_owing =
  (Returned tt,
   set_amount_due sample_owing 0,
   [EvSetActiveHand right_arm; EvOpenGripper;
    EvPrint "No available banknotes on the table...";
    EvMoveToPosition (sample_pose 3 100) right_arm; EvSleep 1;
    EvOpenGripper; EvSetNeutralPositionOfLimb]).
Proof.
  exact (give_money_books_a_banknote_never_picked sample_owing
           (sample_pose 3 100) right_arm eq_refl eq_refl).
Defined.

(** The same at the level of a whole session: one banknote on the table,
    a banknote of 5 collected against a bill of 3; the second dispense finds
    the table empty, and the session still ends settled. *)
Example short_table_session :
  let r := interact_with_customer sample_is_empty 3
             (fun _ => sample_inputs (Some 5)) sample_short_cashier in
  outcome_of r = Returned tt /\
  amount_due (self_of r) = 0 /\
  printed_amounts (events_of r) = [3; -2; -1] /\
  In (EvPrint "No available banknotes on the table...") (events_of r) /\
  length (filter (fun e => match e with EvCloseGripper => true
                                      | _ => false end) (events_of r))
  = 2%nat.
Proof. vm_compute. intuition. Qed.

(* ================================================================== *)
(** ** Sensing and the choice of the action *)

Lemma get_pose_ok (i : Inputs) (s : Cashier) (l r : UserPose) :
  reply_right_hand i = Some l -> reply_left_hand i = Some r ->
  get_pose_from_space i s =
  (Returned (pose_of_reply l (clock_left_pose i),
             pose_of_reply r (clock_right_pose i)),
   s,
   [EvWaitForService "get_user_pose"; EvGetUserPose 1 "right_hand";
    EvGetUserPose 1 "left_hand"]).
Proof.
  intros Hl Hr. unfold get_pose_from_space. rewrite Hl, Hr. reflexivity.
Qed.

Lemma get_pose_first_call_fails (i : Inputs) (s : Cashier) :
  reply_right_hand i = None ->
  get_pose_from_space i s =
  (Raised UnboundLocalError, s,
   [EvWaitForService "get_user_pose"; EvGetUserPose 1 "right_hand";
    EvPrintServiceCallFailed]).
Proof.
  intros Hl. unfold get_pose_from_space. rewrite Hl. reflexivity.
Qed.

Lemma get_pose_second_call_fails (i : Inputs) (s : Cashier) (l : UserPose) :
  reply_right_hand i = Some l -> reply_left_hand i = None ->
  get_pose_from_space i s =
  (Raised UnboundLocalError, s,
   [EvWaitForService "get_user_pose"; EvGetUserPose 1 "right_hand";
    EvGetUserPose 1 "left_hand"; EvPrintServiceCallFailed]).
Proof.
  intros Hl Hr. unfold get_pose_from_space. rewrite Hl, Hr. reflexivity.
Qed.

Section LoopFacts.

Variable is_empty : BaxterPose -> bool.

Lemma loop_body_dispense (i : Inputs) (s : Cashier) :
  amount_due s < 0 ->
  loop_body is_empty i s =
  after [EvPrintAmount (amount_due s)] (give_money_to_customer s).
Proof.
  intros H. apply Z.ltb_lt in H.
  unfold loop_body.
  rewrite (bind_returned get _ s eq_refl). simpl app.
  rewrite (bind_returned (emit _) _ s eq_refl).
  rewrite H, after_after. reflexivity.
Qed.

Lemma loop_body_senses (i : Inputs) (s : Cashier) :
  0 < amount_due s ->
  loop_body is_empty i s =
  after [EvPrintAmount (amount_due s)]
    (bind (get_pose_from_space i)
       (fun '(left_pose, right_pose) =>
          if pose_is_outdated (clock_left_check i) left_pose
             && pose_is_outdated (clock_right_check i) right_pose
          then ret tt
          else
            bind (pose_is_reachable is_empty i left_pose "right")
              (fun left_ok =>
                 if left_ok
                 then take_money_from_customer i left_pose right_arm
                 else
                   bind (pose_is_reachable is_empty i right_pose "left")
                     (fun right_ok =>
                        if right_ok
                        then take_money_from_customer i right_pose left_arm
                        else (emit (EvPrint
                          "Wasn't able to move hand to goal position")))))
       s).
Proof.
  intros H.
  assert (Hlt : (amount_due s <? 0) = false) by (apply Z.ltb_ge; lia).
  unfold loop_body.
  rewrite (bind_returned get _ s eq_refl). simpl app.
  rewrite (bind_returned (emit _) _ s eq_refl).
  rewrite Hlt, after_after. reflexivity.
Qed.

End LoopFacts.

Section ActionFacts.

Variable is_empty : BaxterPose -> bool.

(** The test [pose_is_reachable] makes, without the trace. *)
Lemma pose_is_reachable_run (i : Inputs) (p : BaxterPose) (side : string)
    (s : Cashier) :
  let arm := if String.eqb side "left" then left_arm else right_arm in
  pose_is_reachable is_empty i p side s =
  (Returned (negb (is_empty p) && is_pose_reachable_by_arm i p arm), s,
   if is_empty p then [] else [EvIsPoseReachableByArm p arm]).
Proof.
  unfold pose_is_reachable. destruct (is_empty p); reflexivity.
Qed.

(** The action of a pass that senses: nothing when both poses are
    outdated; else a collect of the left-hand pose with the right arm when
    that pose is not empty and within reach of the right arm; else a
    collect of the right-hand pose with the left arm under the mirrored
    test; else a message. *)
Lemma loop_body_action (i : Inputs) (s : Cashier) (l r : UserPose) :
  0 < amount_due s ->
  reply_right_hand i = Some l -> reply_left_hand i = Some r ->
  let left_pose := pose_of_reply l (clock_left_pose i) in
  let right_pose := pose_of_reply r (clock_right_pose i) in
  let sensed :=
    [EvPrintAmount (amount_due s);
     EvWaitForService "get_user_pose"; EvGetUserPose 1 "right_hand";
     EvGetUserPose 1 "left_hand"] in
  let asked_left :=
    if is_empty left_pose then []
    else [EvIsPoseReachableByArm left_pose right_arm] in
  let asked_right :=
    if is_empty right_pose then []
    else [EvIsPoseReachableByArm right_pose left_arm] in
  loop_body is_empty i s =
  if pose_is_outdated (clock_left_check i) left_pose
     && pose_is_outdated (clock_right_check i) right_pose
  then (Returned tt, s, sensed)
  else if negb (is_empty left_pose)
          && is_pose_reachable_by_arm i left_pose right_arm
  then after (sensed ++ asked_left)
         (take_money_from_customer i left_pose right_arm s)
  else if negb (is_empty right_pose)
          && is_pose_reachable_by_arm i right_pose left_arm
  then after (sensed ++ asked_left ++ asked_right)
         (take_money_from_customer i right_pose left_arm s)
  else (Returned tt, s,
        sensed ++ asked_left ++ asked_right ++
        [EvPrint "Wasn't able to move hand to goal position"]).
Proof.
  intros Hpos Hl Hr left_pose right_pose sensed asked_left asked_right.
  rewrite (loop_body_senses is_empty i s Hpos).
  rewrite (bind_returned _ _ s (get_pose_ok i s l r Hl Hr)).
  rewrite after_after.
  fold left_pose right_pose.
  change ([EvPrintAmount (amount_due s)] ++ _) with sensed.
  destruct (pose_is_outdated (clock_left_check i) left_pose
            && pose_is_outdated (clock_right_check i) right_pose).
  { unfold after, ret, sensed. reflexivity. }
  rewrite (bind_returned _ _ s
             (pose_is_reachable_run i left_pose "right" s)).
  change (if ("right" =? "left")%string then left_arm else right_arm)
    with right_arm.
  fold asked_left. rewrite after_after.
  destruct (negb (is_empty left_pose)
            && is_pose_reachable_by_arm i left_pose right_arm).
  { reflexivity. }
  rewrite (bind_returned _ _ s
             (pose_is_reachable_run i right_pose "left" s)).
  change (if ("left" =? "left")%string then left_arm else right_arm)
    with left_arm.
  fold asked_right. rewrite after_after, <- app_assoc.
  destruct (negb (is_empty right_pose)
            && is_pose_reachable_by_arm i right_pose left_arm).
  { reflexivity. }
  unfold after, emit; simpl. rewrite <- !app_assoc. reflexivity.
Qed.

End ActionFacts.

(* ================================================================== *)
(** ** The loop *)

Section WhileFacts.

Variable is_empty : BaxterPose -> bool.

Lemma while_done (fuel : nat) (inputs : nat -> Inputs) (k : nat)
    (s : Cashier) :
  amount_due s = 0 ->
  while_amount_due is_empty fuel inputs k s = (Returned tt, s, []).
Proof.
  intros H. destruct fuel; simpl; cbv [bind get]; rewrite H; reflexivity.
Qed.

Lemma while_step (fuel : nat) (inputs : nat -> Inputs) (k : nat)
    (s : Cashier) :
  amount_due s <> 0 ->
  while_amount_due is_empty (S fuel) inputs k s =
  bind (loop_body is_empty (inputs k))
    (fun _ => while_amount_due is_empty fuel inputs (S k)) s.
Proof.
  intros H. apply Z.eqb_neq in H.
  cbn [while_amount_due].
  rewrite (bind_returned get _ s eq_refl), H.
  unfold after, outcome_of, self_of, events_of.
  match goal with |- (fst (fst ?x), _, _) = _ =>
    destruct x as [[o s1] t1] end.
  reflexivity.
Qed.

Lemma interact_run (fuel : nat) (inputs : nat -> Inputs) (s : Cashier) :
  interact_with_customer is_empty fuel inputs s =
  after [EvShowImage "normal_eyes.png"; EvSleep 1]
    (while_amount_due is_empty fuel inputs 0 (reset_tables s)).
Proof.
  unfold interact_with_customer.
  rewrite (bind_returned show_eyes_normal _ s eq_refl).
  rewrite (bind_returned (modify _) _ s eq_refl), after_after.
  rewrite (bind_returned (modify _) _ _ eq_refl), after_after.
  reflexivity.
Qed.

End WhileFacts.

(** C3.  A failed hand-pose call is not a skipped pass.  When either
    [get_user_pose] call raises in a pass that senses, the exception is
    caught and printed, but the names it should have bound are then read:
    [get_pose_from_space] raises [UnboundLocalError], which ends the pass
    and the whole loop instead of leading to a new sample. *)
Theorem pose_service_failure_ends_the_loop
    (is_empty : BaxterPose -> bool) (i : Inputs) (s : Cashier) :
  0 < amount_due s ->
  reply_right_hand i = None \/ reply_left_hand i = None ->
  outcome_of (loop_body is_empty i s) = Raised UnboundLocalError /\
  self_of (loop_body is_empty i s) = s /\
  forall fuel inputs,
    inputs 0%nat = i ->
    outcome_of (interact_with_customer is_empty (S fuel) inputs s)
    = Raised UnboundLocalError.
Proof.
  intros Hpos Hfail.
  assert (Hg : exists t,
             get_pose_from_space i s = (Raised UnboundLocalError, s, t)).
  { destruct (reply_right_hand i) as [l|] eqn:Hl.
    - destruct Hfail as [Hf|Hf]; [discriminate|].
      eexists. exact (get_pose_second_call_fails i s l Hl Hf).
    - eexists. exact (get_pose_first_call_fails i s Hl). }
  destruct Hg as [t Hg].
  assert (Hb : loop_body is_empty i s =
               (Raised UnboundLocalError, s,
                [EvPrintAmount (amount_due s)] ++ t)).
  { rewrite (loop_body_senses is_empty i s Hpos).
    rewrite (bind_raised _ _ s s _ _ Hg). reflexivity. }
  rewrite Hb. do 2 (split; [reflexivity|]).
  intros fuel inputs Hi.
  rewrite interact_run.
  assert (Hpos' : amount_due (reset_tables s) <> 0) by (simpl; lia).
  rewrite (while_step is_empty fuel inputs 0 _ Hpos'), Hi.
  assert (Hg' : get_pose_from_space i (reset_tables s) =
                (Raised UnboundLocalError, reset_tables s, t)).
  { revert Hg. unfold get_pose_from_space.
    destruct (reply_right_hand i); [destruct (reply_left_hand i)|];
      cbv [bind emit ret raise]; intros Hg; inversion Hg; reflexivity. }
  rewrite (bind_raised _ _ (reset_tables s) (reset_tables s)
             UnboundLocalError ([EvPrintAmount (amount_due s)] ++ t)).
  - reflexivity.
  - rewrite (loop_body_senses is_empty i (reset_tables s)) by (simpl; lia).
    rewrite (bind_raised _ _ _ _ _ _ Hg'). reflexivity.
Qed.

Lemma pose_service_failure_witness :
  outcome_of (loop_body sample_is_empty sample_inputs_no_pose sample_cashier)
  = Raised UnboundLocalError /\
  self_of (loop_body sample_is_empty sample_inputs_no_pose sample_cashier)
  = sample_cashier /\
  forall fuel inputs,
    inputs 0%nat = sample_inputs_no_pose ->
    outcome_of
      (interact_with_customer sample_is_empty (S fuel) inputs sample_cashier)
    = Raised UnboundLocalError.
Proof.
  apply (pose_service_failure_ends_the_loop sample_is_empty
           sample_inputs_no_pose sample_cashier).
  - reflexivity.
  - left. reflexivity.
Defined.

(** C4.  Dispense dominance.  In every pass with [amount_due < 0] the body
    prints the amount and runs [give_money_to_customer], nothing else: no
    hand-pose call and no reachability query is made, and the pass is the
    same whatever the sensors, the planner and the recogniser would have
    answered. *)
Theorem dispense_dominates_sensing
    (is_empty : BaxterPose -> bool) (i : Inputs) (s : Cashier) :
  amount_due s < 0 ->
  loop_body is_empty i s =
    after [EvPrintAmount (amount_due s)] (give_money_to_customer s) /\
  forallb (fun e => negb (is_sensing e))
    (events_of (loop_body is_empty i s)) = true /\
  forall is_empty' i',
    loop_body is_empty' i' s = loop_body is_empty i s.
Proof.
  intros Hneg.
  rewrite (loop_body_dispense is_empty i s Hneg).
  split; [reflexivity|]. split.
  - unfold after, events_of at 1.
    cbn [snd app forallb is_sensing negb andb].
    apply give_money_no_sensing.
  - intros is_empty' i'. apply loop_body_dispense, Hneg.
Qed.

Lemma dispense_dominates_witness :
  loop_body sample_is_empty (sample_inputs (Some 1)) sample_owing =
    after [EvPrintAmount (-1)] (give_money_to_customer sample_owing) /\
  forallb (fun e => negb (is_sensing e))
    (events_of (loop_body sample_is_empty (sample_inputs (Some 1))
                  sample_owing)) = true /\
  forall is_empty' i',
    loop_body is_empty' i' sample_owing =
    loop_body sample_is_empty (sample_inputs (Some 1)) sample_owing.
Proof.
  apply (dispense_dominates_sensing sample_is_empty (sample_inputs (Some 1))
           sample_owing).
  reflexivity.
Defined.

(** C10.  Dispensing needs a cached hand-over pose.  [__init__] leaves
    [customer_last_pose] at [None]; with [None] there,
    [give_money_to_customer] raises [TypeError] at the unpacking, before
    any command to the arms and with [amount_due] untouched, and so does a
    session entered with [amount_due < 0]; with a cached pair the dispense
    returns and books one unit. *)
Theorem give_money_needs_a_cached_pose :
  (forall left_pose left_num right_pose right_num,
     customer_last_pose
       (Cashier_init left_pose left_num right_pose right_num) = None) /\
  (forall s,
     customer_last_pose s = None ->
     give_money_to_customer s = (Raised TypeError, s, [])) /\
  (forall is_empty fuel inputs s,
     customer_last_pose s = None -> amount_due s < 0 ->
     interact_with_customer is_empty (S fuel) inputs s =
     (Raised TypeError, reset_tables s,
      [EvShowImage "normal_eyes.png"; EvSleep 1;
       EvPrintAmount (amount_due s)])) /\
  (forall s p a,
     customer_last_pose s = Some (p, a) ->
     outcome_of (give_money_to_customer s) = Returned tt /\
     amount_due (self_of (give_money_to_customer s)) = amount_due s + 1 /\
     In (p, a) (moves (events_of (give_money_to_customer s)))).
Proof.
  split; [reflexivity|]. split; [exact give_money_without_pose|]. split.
  - intros is_empty fuel inputs s Hc Hneg.
    rewrite interact_run.
    assert (Hnz : amount_due (reset_tables s) <> 0) by (simpl; lia).
    rewrite (while_step is_empty fuel inputs 0 _ Hnz).
    rewrite (bind_raised _ _ (reset_tables s) (reset_tables s) TypeError
               [EvPrintAmount (amount_due s)]).
    + reflexivity.
    + rewrite loop_body_dispense by (simpl; lia).
      rewrite give_money_without_pose by exact Hc. reflexivity.
  - intros s p a Hc. rewrite (give_money_run _ _ _ Hc).
    split; [reflexivity|]. split; [reflexivity|].
    unfold events_of; simpl snd. rewrite moves_app.
    apply in_or_app. right. left. reflexivity.
Qed.

Lemma moves_asked (is_empty : BaxterPose -> bool) (p : BaxterPose)
    (a : Arm) :
  moves (if is_empty p then [] else [EvIsPoseReachableByArm p a]) = [].
Proof. destruct (is_empty p); reflexivity. Qed.

(** C5.  Cross-mapping.  In a pass that senses (amount positive, both
    replies received), write [left_pose] for the pose of the customer's
    left hand and [right_pose] for that of the right hand.  If [left_pose]
    is not empty and within reach of the right arm, the only move commanded
    in the pass is to [left_pose] with the right arm, the pass being the
    collect [take_money_from_customer left_pose right_arm]; if that test
    fails and [right_pose] is not empty and within reach of the left arm,
    the only move is to [right_pose] with the left arm.  (When both poses
    are outdated the pass collects nothing.) *)
Theorem collect_is_cross_mapped
    (is_empty : BaxterPose -> bool) (i : Inputs) (s : Cashier)
    (l r : UserPose) :
  0 < amount_due s ->
  reply_right_hand i = Some l -> reply_left_hand i = Some r ->
  let left_pose := pose_of_reply l (clock_left_pose i) in
  let right_pose := pose_of_reply r (clock_right_pose i) in
  let stale := pose_is_outdated (clock_left_check i) left_pose
               && pose_is_outdated (clock_right_check i) right_pose in
  let pass := loop_body is_empty i s in
  (is_empty left_pose = false ->
   is_pose_reachable_by_arm i left_pose right_arm = true ->
   moves (events_of pass) =
     (if stale then [] else [(left_pose, right_arm)]) /\
   (stale = false ->
    outcome_of pass =
      outcome_of (take_money_from_customer i left_pose right_arm s) /\
    self_of pass =
      self_of (take_money_from_customer i left_pose right_arm s))) /\
  (is_empty left_pose = true \/
   is_pose_reachable_by_arm i left_pose right_arm = false ->
   is_empty right_pose = false ->
   is_pose_reachable_by_arm i right_pose left_arm = true ->
   moves (events_of pass) =
     (if stale then [] else [(right_pose, left_arm)]) /\
   (stale = false ->
    outcome_of pass =
      outcome_of (take_money_from_customer i right_pose left_arm s) /\
    self_of pass =
      self_of (take_money_from_customer i right_pose left_arm s))).
Proof.
  intros Hpos Hl Hr left_pose right_pose stale pass.
  pose proof (loop_body_action is_empty i s l r Hpos Hl Hr) as Hrun.
  cbv zeta in Hrun. fold left_pose right_pose stale pass in Hrun.
  split.
  - intros He Hreach. rewrite He, Hreach in Hrun. cbn [negb andb] in Hrun.
    rewrite Hrun. destruct stale; [split; [reflexivity|discriminate]|].
    split; [|intros _; split; reflexivity].
    rewrite events_of_after, !moves_app, take_money_moves. reflexivity.
  - intros Hleft He Hreach.
    assert (Hno : negb (is_empty left_pose)
                  && is_pose_reachable_by_arm i left_pose right_arm = false).
    { destruct Hleft as [H|H]; rewrite H;
        [reflexivity | apply andb_false_r]. }
    rewrite Hno, He, Hreach in Hrun. cbn [negb andb] in Hrun.
    rewrite Hrun. destruct stale; [split; [reflexivity|discriminate]|].
    split; [|intros _; split; reflexivity].
    rewrite events_of_after, !moves_app, take_money_moves, !moves_asked.
    reflexivity.
Qed.

Lemma collect_is_cross_mapped_witness :
  moves (events_of (loop_body sample_is_empty (sample_inputs (Some 1))
                      sample_cashier))
  = [(sample_pose 3 100, right_arm)] /\
  moves (events_of (loop_body sample_is_empty sample_inputs_right_only
                      sample_cashier))
  = [(sample_pose 4 100, left_arm)].
Proof.
  split.
  - destruct (collect_is_cross_mapped sample_is_empty
                (sample_inputs (Some 1)) sample_cashier
                (sample_reply 3) (sample_reply 4)
                eq_refl eq_refl eq_refl) as [H _].
    exact (proj1 (H eq_refl eq_refl)).
  - destruct (collect_is_cross_mapped sample_is_empty
                sample_inputs_right_only sample_cashier
                (sample_reply 0) (sample_reply 4)
                eq_refl eq_refl eq_refl) as [_ H].
    exact (proj1 (H (or_introl eq_refl) eq_refl eq_refl)).
Defined.

(* ================================================================== *)
(** ** Ledger arithmetic over a session *)

Lemma shown_images_app (xs ys : list Event) :
  shown_images (xs ++ ys) = shown_images xs ++ shown_images ys.
Proof.
  induction xs as [|e xs IH]; [reflexivity|].
  destruct e; simpl; rewrite IH; reflexivity.
Qed.

Lemma give_money_prints_no_amount (s : Cashier) (p : BaxterPose) (a : Arm) :
  customer_last_pose s = Some (p, a) ->
  printed_amounts (events_of (give_money_to_customer s)) = [] /\
  shown_images (events_of (give_money_to_customer s)) = [].
Proof.
  intros Hc. rewrite (give_money_run _ _ _ Hc).
  destruct (pick_banknote_returns a s) as (_ & _ & _ & Hp & _ & Hi).
  unfold events_of at 1 3; simpl snd.
  rewrite !printed_amounts_app, !shown_images_app, Hp, Hi.
  destruct (amount_due s + 1 >=? 0); split; reflexivity.
Qed.

(** With a cached hand-over pose, a debt of [n] units to the customer is
    settled by [n] dispenses of one unit each, whatever the tables hold. *)
Lemma dispense_loop (is_empty : BaxterPose -> bool) (n : nat) :
  forall (s : Cashier) (fuel : nat) (inputs : nat -> Inputs) (k : nat)
         (p : BaxterPose) (a : Arm),
    amount_due s = - Z.of_nat n ->
    customer_last_pose s = Some (p, a) ->
    (n <= fuel)%nat ->
    let res := while_amount_due is_empty fuel inputs k s in
    outcome_of res = Returned tt /\
    amount_due (self_of res) = 0 /\
    customer_last_pose (self_of res) = Some (p, a) /\
    printed_amounts (events_of res) = countdown n /\
    shown_images (events_of res) = [].
Proof.
  induction n as [|n IH]; intros s fuel inputs k p a Ha Hc Hf res.
  - subst res. rewrite while_done by exact Ha.
    repeat split; assumption.
  - destruct fuel as [|fuel]; [lia|].
    assert (Hneg : amount_due s < 0) by lia.
    assert (Hnz : amount_due s <> 0) by lia.
    destruct (pick_banknote_returns a s) as (_ & Hpa & Hpc & _).
    destruct (give_money_prints_no_amount s p a Hc) as [Hpr Him].
    pose proof (give_money_run s p a Hc) as Hg.
    set (s1 := set_amount_due (self_of (pick_banknote_from_table a s))
                 (amount_due s + 1)) in *.
    assert (Hb : loop_body is_empty (inputs k) s =
                 (Returned tt, s1,
                  [EvPrintAmount (amount_due s)] ++
                  events_of (give_money_to_customer s))).
    { rewrite (loop_body_dispense is_empty _ s Hneg), Hg. reflexivity. }
    subst res.
    rewrite (while_step is_empty fuel inputs k s Hnz).
    rewrite (bind_returned _ _ s Hb).
    destruct (IH s1 fuel inputs (S k) p a) as (Ho & Hz & Hl & Hp & Hi).
    + subst s1; simpl. lia.
    + subst s1; simpl. rewrite Hpc. exact Hc.
    + lia.
    + split; [exact Ho|]. split; [exact Hz|]. split; [exact Hl|].
      rewrite events_of_after, !printed_amounts_app, !shown_images_app.
      rewrite Hpr, Hp, Him, Hi.
      cbn [printed_amounts shown_images app countdown]. rewrite Ha.
      split; reflexivity.
Qed.

(** C8.  Full cycle.  A session entered with [amount_due = 3] whose first
    pass sees a fresh, non-empty left-hand pose within reach of the right
    arm and recognises a banknote of 5 books 3 - 5 = -2; the two following
    passes are dispenses of one unit each (-2, then -1 at their start), and
    the loop then ends with [amount_due = 0].  Three passes of fuel are
    enough, and neither the later inputs nor the content of the tables
    matter. *)
Theorem full_cycle_settles
    (is_empty : BaxterPose -> bool) (inputs : nat -> Inputs) (s : Cashier)
    (l r : UserPose) (fuel : nat) :
  amount_due s = 3 ->
  reply_right_hand (inputs 0%nat) = Some l ->
  reply_left_hand (inputs 0%nat) = Some r ->
  let i := inputs 0%nat in
  let left_pose := pose_of_reply l (clock_left_pose i) in
  let right_pose := pose_of_reply r (clock_right_pose i) in
  pose_is_outdated (clock_left_check i) left_pose
    && pose_is_outdated (clock_right_check i) right_pose = false ->
  is_empty left_pose = false ->
  is_pose_reachable_by_arm i left_pose right_arm = true ->
  reply_banknote_amount i = Some 5 ->
  (3 <= fuel)%nat ->
  let res := interact_with_customer is_empty fuel inputs s in
  outcome_of res = Returned tt /\
  amount_due (self_of res) = 0 /\
  customer_last_pose (self_of res) = Some (left_pose, right_arm) /\
  printed_amounts (events_of res) = [3; -2; -1] /\
  shown_images (events_of res) =
    ["normal_eyes.png"; "five_bill_recognised.png"; "normal_eyes.png"].
Proof.
  intros Ha Hl Hr i left_pose right_pose Hfresh He Hreach Hv Hf res.
  destruct fuel as [|fuel]; [lia|].
  set (s0 := reset_tables s).
  assert (Ha0 : amount_due s0 = 3) by exact Ha.
  assert (Hpos : 0 < amount_due s0) by lia.
  assert (Hnz : amount_due s0 <> 0) by lia.
  pose proof (loop_body_action is_empty i s0 l r Hpos Hl Hr) as Hb.
  cbv zeta in Hb. fold left_pose right_pose in Hb.
  rewrite Hfresh, He, Hreach in Hb. cbn [negb andb] in Hb.
  rewrite (take_money_valid i left_pose right_arm s0 5 Hv) in Hb
    by discriminate.
  unfold after, outcome_of, self_of, events_of in Hb.
  cbn [fst snd] in Hb.
  match type of Hb with _ = (_, ?st, ?evs) =>
    set (s1 := st) in *; set (evs1 := evs) in * end.
  subst res. rewrite interact_run. fold s0.
  rewrite (while_step is_empty fuel inputs 0 s0 Hnz).
  fold i. rewrite (bind_returned _ _ s0 Hb).
  rewrite after_after.
  destruct (dispense_loop is_empty 2 s1 fuel inputs 1 left_pose right_arm)
    as (Ho & Hz & Hc & Hp & Hi).
  - subst s1; simpl. rewrite Ha. reflexivity.
  - reflexivity.
  - lia.
  - split; [exact Ho|]. split; [exact Hz|]. split; [exact Hc|].
    rewrite events_of_after, !printed_amounts_app, !shown_images_app.
    rewrite Hp, Hi. subst evs1.
    cbn [app printed_amounts shown_images collect_prefix]. rewrite Ha0.
    split; reflexivity.
Qed.

Lemma full_cycle_witness :
  let res := interact_with_customer sample_is_empty 3
               (fun _ => sample_inputs (Some 5)) sample_cashier in
  outcome_of res = Returned tt /\
  amount_due (self_of res) = 0 /\
  customer_last_pose (self_of res) = Some (sample_pose 3 100, right_arm) /\
  printed_amounts (events_of res) = [3; -2; -1] /\
  shown_images (events_of res) =
    ["normal_eyes.png"; "five_bill_recognised.png"; "normal_eyes.png"].
Proof.
  exact (full_cycle_settles sample_is_empty
           (fun _ => sample_inputs (Some 5)) sample_cashier
           (sample_reply 3) (sample_reply 4) 3
           eq_refl eq_refl eq_refl eq_refl eq_refl eq_refl eq_refl
           (le_n 3)).
Defined.

(* ================================================================== *)
(** ** The animation thread and its flag *)

Lemma animation_run (observed : nat -> bool) (s : Cashier) :
  make_eyes_animated_reading_banknote observed s =
  (Returned tt, s,
   flat_map (fun step => if observed (fst step) then []
                         else [EvShowImage (snd step); EvSleep 1])
     animation_steps).
Proof.
  unfold make_eyes_animated_reading_banknote, funcs, animation_steps.
  cbn [run_funcs flat_map fst snd].
  destruct (observed 0%nat), (observed 1%nat), (observed 2%nat),
    (observed 3%nat), (observed 4%nat); reflexivity.
Qed.

(** The events of a collect from the start of the thread on: the thread
    is started first, then the flag is cleared, the service is waited for
    and called, and the flag is set again, after the failure message when
    the call raised; no further store or thread start follows. *)
Lemma take_money_flag_protocol (i : Inputs) (pose : BaxterPose) (arm : Arm)
    (s : Cashier) :
  exists tail,
    events_of (take_money_from_customer i pose arm s) =
    [EvMoveToPosition pose arm; EvOpenGripper; EvSleep 1; EvCloseGripper;
     EvMoveHandToHeadCamera]
    ++ [EvThreadStart; EvStoreTaskCompleted false;
        EvWaitForService "recognise_banknote";
        EvRecogniseBanknote (_money_recognition_camera_topic s)]
    ++ (match reply_banknote_amount i with
        | Some _ => []
        | None => [EvPrintServiceCallFailed]
        end)
    ++ [EvStoreTaskCompleted true] ++ tail /\
    (forall v, ~ In (EvStoreTaskCompleted v) tail) /\
    ~ In EvThreadStart tail.
Proof.
  destruct (reply_banknote_amount i) as [v|] eqn:Hr.
  - destruct (Z.eq_dec v (-1)) as [->|Hv].
    + rewrite (take_money_sentinel _ _ _ _ Hr).
      eexists. split; [reflexivity|].
      split; [intros v H|intros H]; simpl in H;
        repeat (destruct H as [H|H]; [discriminate|]); exact H.
    + rewrite (take_money_valid _ _ _ _ _ Hr Hv).
      eexists. split; [reflexivity|].
      split; [intros v' H|intros H]; simpl in H;
        repeat (destruct H as [H|H]; [discriminate|]); exact H.
  - rewrite (take_money_service_exception _ _ _ _ Hr).
    eexists. split; [reflexivity|].
    split; [intros v H|intros H]; simpl in H;
      repeat (destruct H as [H|H]; [discriminate|]); exact H.
Qed.

(** Two collects in a row on the sample data: in the second one the event
    before the thread start is the move of the hand to the head camera,
    the store of [False] comes right after the start, and the thread is
    started while the flag still holds the [True] of the first collect. *)
Lemma flag_is_cleared_after_the_thread_start :
  let first :=
    take_money_from_customer (sample_inputs (Some 1)) (sample_pose 3 100)
      right_arm sample_cashier in
  let second :=
    take_money_from_customer (sample_inputs (Some 1)) (sample_pose 3 100)
      right_arm (self_of first) in
  event_before_thread_start None (events_of second)
    <> Some (EvStoreTaskCompleted false) /\
  event_before_thread_start None (events_of second)
    = Some EvMoveHandToHeadCamera /\
  event_after_thread_start (events_of second)
    = Some (EvStoreTaskCompleted false) /\
  flag_at_thread_start
    (banknote_recognition_task_completed (self_of first))
    (events_of second) = Some true.
Proof.
  cbv zeta. split; [|split; [|split]]; try reflexivity.
  intros H. vm_compute in H. discriminate H.
Qed.

(** On the sample data: a first collect after [__init__] and a second one,
    the thread making its five tests before the caller's next statement. *)
Example sample_second_collect_shows_no_animation :
  let first :=
    take_money_from_customer (sample_inputs (Some 1)) (sample_pose 3 100)
      right_arm sample_cashier in
  let second :=
    take_money_from_customer (sample_inputs (Some 1)) (sample_pose 3 100)
      right_arm (self_of first) in
  length (shown_images
            (animation_beside sample_cashier (events_of first)
               (fun _ => 0%nat))) = 5%nat /\
  length (shown_images
            (animation_beside (self_of first) (events_of second)
               (fun _ => 0%nat))) = 0%nat.
Proof. vm_compute. split; reflexivity. Qed.

(** C9.  The animation thread is started under a stale flag.  Every
    collect leaves the flag at [True], and the next collect starts the
    thread first and clears the flag only afterwards, in
    [get_banknote_value].  So in every collect after another one the thread
    starts while the flag is [True]: if its five tests run before the
    caller's store of [False] it shows nothing, if they run after that
    store and before the recognition returns it shows all five images.  In
    a collect that begins with the flag at [False], as the first one after
    [__init__], the thread shows the five images under the early pace
    too. *)
Theorem animation_starts_under_a_stale_flag
    (i1 i2 : Inputs) (pose1 pose2 : BaxterPose) (arm1 arm2 : Arm)
    (s : Cashier) :
  let first := take_money_from_customer i1 pose1 arm1 s in
  let s1 := self_of first in
  let second := take_money_from_customer i2 pose2 arm2 s1 in
  let five :=
    ["looking_eyes.png"; "looking_right_eyes.png"; "looking_left_eyes.png";
     "looking_right_eyes.png"; "looking_left_eyes.png"] in
  banknote_recognition_task_completed s1 = true /\
  flag_at_thread_start (banknote_recognition_task_completed s1)
    (events_of second) = Some true /\
  event_after_thread_start (events_of second)
    = Some (EvStoreTaskCompleted false) /\
  animation_beside s1 (events_of second) (fun _ => 0%nat) = [] /\
  shown_images (animation_beside s1 (events_of second) (fun _ => 1%nat))
    = five /\
  (banknote_recognition_task_completed s = false ->
   shown_images (animation_beside s (events_of first) (fun _ => 0%nat))
   = five).
Proof.
  intros first s1 second five.
  assert (Hflag : banknote_recognition_task_completed s1 = true).
  { subst s1 first.
    destruct (reply_banknote_amount i1) as [v|] eqn:Hr.
    - destruct (Z.eq_dec v (-1)) as [->|Hv].
      + rewrite (take_money_sentinel _ _ _ _ Hr). reflexivity.
      + rewrite (take_money_valid _ _ _ _ _ Hr Hv). reflexivity.
    - rewrite (take_money_service_exception _ _ _ _ Hr). reflexivity. }
  destruct (take_money_flag_protocol i2 pose2 arm2 s1) as (t2 & He2 & _).
  destruct (take_money_flag_protocol i1 pose1 arm1 s) as (t1 & He1 & _).
  fold second in He2. fold first in He1.
  split; [exact Hflag|].
  split; [rewrite He2, Hflag; reflexivity|].
  split; [rewrite He2; reflexivity|].
  unfold animation_beside. rewrite !animation_run.
  unfold flag_read_by_thread. rewrite He2, He1.
  cbn [app flag_at_thread_start events_after_thread_start firstn flag_after
       events_of snd].
  rewrite Hflag.
  split; [reflexivity|]. split; [reflexivity|].
  intros H0. rewrite H0. reflexivity.
Qed.

(* ================================================================== *)
(** ** Further properties: the inventory *)

Lemma append_remaining_row (n : nat) (first : Banknote) :
  forall (pre : list Banknote) (x : Banknote),
    Table.append_remaining n first (pre ++ [x]) = pre ++ row_from n x.
Proof.
  induction n as [|n IH]; intros pre x; [reflexivity|].
  cbn [Table.append_remaining row_from].
  rewrite last_last, <- app_assoc.
  rewrite (app_assoc pre [x] [Table.shifted_copy x]).
  rewrite (IH (pre ++ [x]) (Table.shifted_copy x)).
  rewrite <- app_assoc. reflexivity.
Qed.

Lemma row_from_length (n : nat) :
  forall b, length (row_from n b) = S n.
Proof.
  induction n as [|n IH]; intros b; [reflexivity|].
  cbn [row_from length]. rewrite IH. reflexivity.
Qed.

Lemma row_from_available (n : nat) :
  forall b, is_available b = true ->
            Forall (fun c => is_available c = true) (row_from n b).
Proof.
  induction n as [|n IH]; intros b Hb; cbn [row_from].
  - repeat constructor. exact Hb.
  - constructor; [exact Hb|]. apply IH. exact Hb.
Qed.

Lemma row_from_neighbours (n : nat) :
  forall b k c c',
    nth_error (row_from n b) k = Some c ->
    nth_error (row_from n b) (S k) = Some c' ->
    c' = Table.shifted_copy c.
Proof.
  induction n as [|n IH]; intros b k c c' Hk HSk.
  - destruct k; discriminate.
  - cbn [row_from] in Hk, HSk. destruct k as [|k].
    + simpl in Hk, HSk. inversion Hk; subst.
      destruct n; simpl in HSk; inversion HSk; reflexivity.
    + exact (IH _ k c c' Hk HSk).
Qed.

(** X1.  The table built by the constructor.  For a recorded pose and a
    typed number [num] the table holds 1 + max(0, num) banknotes, all
    available; the first lies at the recorded pose, and every further one is
    a copy of the one before it with 0.10 added to [transformation_x] and
    nothing else changed (the offsets are added one after the other, not
    computed from the first pose). *)
Theorem table_init_layout
    (initial_pose : BaxterPose) (side : string) (num : Z) :
  let t := Table.init initial_pose side num in
  length (banknotes t) = S (Z.to_nat num) /\
  nth_error (banknotes t) 0 = Some (Banknote_init initial_pose) /\
  Forall (fun b => is_available b = true) (banknotes t) /\
  (forall k b b',
     nth_error (banknotes t) k = Some b ->
     nth_error (banknotes t) (S k) = Some b' ->
     is_available b' = is_available b /\
     pose b' =
       set_transformation_x (pose b)
         (transformation_x (pose b) + 0x1.999999999999ap-4)%float) /\
  _table_side t = side.
Proof.
  intros t.
  assert (Hb : banknotes t =
               row_from (Z.to_nat num) (Banknote_init initial_pose)).
  { subst t. unfold Table.init, Table._calculate_pose_of_remaining_poses.
    cbn [banknotes set_banknotes _number_of_remaining_banknotes
         _initial_pose].
    exact (append_remaining_row (Z.to_nat num) _ [] _). }
  rewrite Hb.
  split; [apply row_from_length|].
  split; [destruct (Z.to_nat num); reflexivity|].
  split; [apply row_from_available; reflexivity|].
  split; [|reflexivity].
  intros k b b' Hk HSk.
  rewrite (row_from_neighbours _ _ k b b' Hk HSk). split; reflexivity.
Qed.

Lemma map_pose_with_slot (bs : list Banknote) (i : nat) (b0 : Banknote)
    (v : bool) :
  nth_error bs i = Some b0 ->
  map pose (Table.with_slot bs i (set_is_available b0 v)) = map pose bs.
Proof.
  unfold Table.with_slot.
  revert i; induction bs as [|a rest IH]; intros i Hn.
  - destruct i; discriminate.
  - destruct i as [|i]; simpl in Hn.
    + inversion Hn; subst. reflexivity.
    + change (firstn (S i) (a :: rest)) with (a :: firstn i rest).
      change (skipn (S (S i)) (a :: rest)) with (skipn (S i) rest).
      cbn [app map]. f_equal. exact (IH i Hn).
Qed.

Lemma get_next_keeps_poses (t : BanknotesOnTable) :
  let t' := snd (Table.get_next_available_banknote t) in
  map pose (banknotes t') = map pose (banknotes t) /\
  _table_side t' = _table_side t /\
  _initial_pose t' = _initial_pose t /\
  _number_of_remaining_banknotes t' = _number_of_remaining_banknotes t.
Proof.
  destruct (Table.get_next_available_banknote t) as [[[i b]|] t'] eqn:Hg;
    simpl.
  - destruct (TableFacts.get_next_found _ _ _ _ Hg)
      as (b0 & Hn & _ & _ & Hb & Ht').
    subst b t'. simpl. split; [|auto].
    exact (map_pose_with_slot _ _ _ false Hn).
  - destruct (TableFacts.get_next_none _ _ Hg) as [-> _]. auto.
Qed.

Lemma take_calls_keeps_poses (k : nat) :
  forall t,
    let t' := snd (Table.take_calls k t) in
    map pose (banknotes t') = map pose (banknotes t) /\
    _table_side t' = _table_side t /\
    _initial_pose t' = _initial_pose t /\
    _number_of_remaining_banknotes t' = _number_of_remaining_banknotes t.
Proof.
  induction k as [|k IH]; intros t; [simpl; auto|].
  cbv zeta. rewrite TableFacts.take_calls_S. cbn [snd].
  destruct (get_next_keeps_poses t) as (H1 & H2 & H3 & H4).
  destruct (IH (snd (Table.get_next_available_banknote t)))
    as (G1 & G2 & G3 & G4).
  repeat split; congruence.
Qed.

Lemma reset_by_poses (t : BanknotesOnTable) :
  banknotes (Table.reset_availability_for_all_banknotes t) =
  map (fun p => mkBanknote p true) (map pose (banknotes t)).
Proof.
  unfold Table.reset_availability_for_all_banknotes; simpl.
  rewrite map_map. reflexivity.
Qed.

(** X2.  Taking changes flags only, and a reset undoes any run of takes.
    After any number of calls of [get_next_available_banknote] the poses of
    the table are as before, in the same order; resetting the table then
    gives the same table as resetting the original one, with every slot
    available; and a second reset changes nothing. *)
Theorem reset_undoes_takes (k : nat) (t : BanknotesOnTable) :
  let t' := snd (Table.take_calls k t) in
  map pose (banknotes t') = map pose (banknotes t) /\
  Table.reset_availability_for_all_banknotes t' =
  Table.reset_availability_for_all_banknotes t /\
  Table.reset_availability_for_all_banknotes
    (Table.reset_availability_for_all_banknotes t) =
  Table.reset_availability_for_all_banknotes t /\
  Table.count_available
    (banknotes (Table.reset_availability_for_all_banknotes t')) =
  length (banknotes t).
Proof.
  intros t'.
  destruct (take_calls_keeps_poses k t) as (H1 & H2 & H3 & H4).
  fold t' in H1, H2, H3, H4.
  assert (Hreset : forall a b,
            map pose (banknotes a) = map pose (banknotes b) ->
            _table_side a = _table_side b ->
            _initial_pose a = _initial_pose b ->
            _number_of_remaining_banknotes a =
              _number_of_remaining_banknotes b ->
            Table.reset_availability_for_all_banknotes a =
            Table.reset_availability_for_all_banknotes b).
  { intros a b E1 E2 E3 E4.
    pose proof (reset_by_poses a) as Ra. pose proof (reset_by_poses b) as Rb.
    unfold Table.reset_availability_for_all_banknotes, set_banknotes in *.
    simpl in Ra, Rb. rewrite Ra, Rb, E1, E2, E3, E4. reflexivity. }
  split; [exact H1|]. split; [apply Hreset; assumption|]. split.
  - apply Hreset; try reflexivity.
    rewrite reset_by_poses, map_map. simpl. rewrite map_id. reflexivity.
  - unfold Table.count_available.
    rewrite forallb_filter_id.
    + rewrite TableFacts.reset_length.
      destruct (TableFacts.take_calls_state k t) as (Hl & _). exact Hl.
    + apply forallb_forall. intros b Hin.
      pose proof (TableFacts.reset_all_available t') as Hall.
      rewrite Forall_forall in Hall. exact (Hall b Hin).
Qed.

(* ================================================================== *)
(** ** Further properties: the tables during a session *)

Lemma table_of_set_table_of (s : Cashier) (a : Arm) (t : BanknotesOnTable) :
  table_of (set_table_of s a t) a = t /\
  table_of (set_table_of s a t) (opposite a) = table_of s (opposite a) /\
  amount_due (set_table_of s a t) = amount_due s /\
  customer_last_pose (set_table_of s a t) = customer_last_pose s /\
  banknote_recognition_task_completed (set_table_of s a t) =
    banknote_recognition_task_completed s.
Proof. destruct a; repeat split. Qed.

Lemma set_table_of_same (s : Cashier) (a : Arm) :
  set_table_of s a (table_of s a) = s.
Proof. destruct s, a; reflexivity. Qed.

(** The object after a pick: only the table of the arm moves on. *)
Lemma pick_banknote_state (a : Arm) (s : Cashier) :
  self_of (pick_banknote_from_table a s) =
  set_table_of s a
    (snd (Table.get_next_available_banknote (table_of s a))).
Proof.
  destruct (Table.get_next_available_banknote (table_of s a))
    as [[[k b]|] t'] eqn:Hg.
  - rewrite (pick_banknote_found _ _ _ _ _ Hg). reflexivity.
  - destruct (TableFacts.get_next_none _ _ Hg) as [-> Hall].
    rewrite (pick_banknote_none _ _ (TableFacts.count_available_zero _ Hall)).
    symmetry. apply set_table_of_same.
Qed.

(** A pick from a table that still has a banknote. *)
Lemma pick_banknote_available (a : Arm) (s : Cashier) (m : nat) :
  Table.count_available (banknotes (table_of s a)) = S m ->
  closes (events_of (pick_banknote_from_table a s)) = 1%nat /\
  table_runs_dry (events_of (pick_banknote_from_table a s)) = false /\
  Table.count_available
    (banknotes (table_of (self_of (pick_banknote_from_table a s)) a)) = m.
Proof.
  intros Hc.
  destruct (Table.get_next_available_banknote (table_of s a))
    as [[[k b]|] t'] eqn:Hg.
  - rewrite (pick_banknote_found _ _ _ _ _ Hg).
    do 2 (split; [reflexivity|]).
    unfold self_of; simpl fst; simpl snd.
    rewrite (proj1 (table_of_set_table_of s a t')).
    destruct (TableFacts.get_next_step (table_of s a)) as (_ & Hp & _).
    rewrite Hg in Hp. simpl in Hp. rewrite Hp, Hc. reflexivity.
  - destruct (TableFacts.get_next_none _ _ Hg) as [_ Hall].
    rewrite (TableFacts.count_available_zero _ Hall) in Hc. discriminate.
Qed.

Lemma closes_app (xs ys : list Event) :
  closes (xs ++ ys) = (closes xs + closes ys)%nat.
Proof.
  induction xs as [|e xs IH]; [reflexivity|].
  destruct e; simpl; rewrite IH; reflexivity.
Qed.

Lemma table_runs_dry_app (xs ys : list Event) :
  table_runs_dry (xs ++ ys) = table_runs_dry xs || table_runs_dry ys.
Proof.
  induction xs as [|e xs IH]; [reflexivity|].
  destruct e; simpl; rewrite IH; try reflexivity.
  apply orb_assoc.
Qed.

(** X3.  With enough banknotes on the side of the cached arm, a debt of
    [n] units is paid with [n] banknotes really picked: the loop returns
    settled, the gripper closed [n] times, the message of an empty table
    was never printed, and that side holds [n] banknotes fewer. *)
Theorem debt_is_paid_from_the_table
    (is_empty : BaxterPose -> bool) (n : nat) :
  forall (s : Cashier) (fuel : nat) (inputs : nat -> Inputs) (k : nat)
         (p : BaxterPose) (a : Arm) (m : nat),
    amount_due s = - Z.of_nat n ->
    customer_last_pose s = Some (p, a) ->
    Table.count_available (banknotes (table_of s a)) = (n + m)%nat ->
    (n <= fuel)%nat ->
    let res := while_amount_due is_empty fuel inputs k s in
    outcome_of res = Returned tt /\
    amount_due (self_of res) = 0 /\
    closes (events_of res) = n /\
    table_runs_dry (events_of res) = false /\
    Table.count_available (banknotes (table_of (self_of res) a)) = m /\
    table_of (self_of res) (opposite a) = table_of s (opposite a).
Proof.
  induction n as [|n IH]; intros s fuel inputs k p a m Ha Hc Hm Hf res.
  - subst res. rewrite while_done by exact Ha.
    repeat split; try assumption.
  - destruct fuel as [|fuel]; [lia|].
    assert (Hneg : amount_due s < 0) by lia.
    assert (Hnz : amount_due s <> 0) by lia.
    destruct (pick_banknote_returns a s) as (_ & Hpa & Hpc & _).
    destruct (pick_banknote_available a s (n + m) Hm) as (Hcl & Hdry & Hcnt).
    pose proof (pick_banknote_state a s) as Hst.
    pose proof (give_money_run s p a Hc) as Hg.
    set (s1 := set_amount_due (self_of (pick_banknote_from_table a s))
                 (amount_due s + 1)) in *.
    assert (Hb : loop_body is_empty (inputs k) s =
                 (Returned tt, s1,
                  [EvPrintAmount (amount_due s)] ++
                  events_of (give_money_to_customer s))).
    { rewrite (loop_body_dispense is_empty _ s Hneg), Hg. reflexivity. }
    subst res.
    rewrite (while_step is_empty fuel inputs k s Hnz).
    rewrite (bind_returned _ _ s Hb).
    assert (Ht1 : forall b, table_of s1 b =
                            table_of (self_of (pick_banknote_from_table a s))
                              b).
    { intros b. subst s1. destruct b; reflexivity. }
    destruct (IH s1 fuel inputs (S k) p a m) as (Ho & Hz & Hk & Hd & Hn & Hop).
    + subst s1; simpl. lia.
    + subst s1; simpl. rewrite Hpc. exact Hc.
    + rewrite Ht1. exact Hcnt.
    + lia.
    + split; [exact Ho|]. split; [exact Hz|].
      assert (Hev : events_of (give_money_to_customer s) =
                    events_of (pick_banknote_from_table a s) ++
                    [EvMoveToPosition p a; EvSleep 1; EvOpenGripper] ++
                    (if amount_due s + 1 >=? 0
                     then [EvSetNeutralPositionOfLimb] else []))
        by (rewrite Hg; reflexivity).
      rewrite events_of_after, Hev.
      rewrite !closes_app, !table_runs_dry_app, Hk, Hd, Hcl, Hdry.
      split; [destruct (amount_due s + 1 >=? 0); simpl; lia|].
      split; [destruct (amount_due s + 1 >=? 0); reflexivity|].
      split; [exact Hn|].
      change (table_of
                (self_of (while_amount_due is_empty fuel inputs (S k) s1))
                (opposite a) = table_of s (opposite a)).
      rewrite Hop, Ht1, Hst.
      exact (proj1 (proj2 (table_of_set_table_of s a _))).
Qed.

Lemma debt_is_paid_witness :
  let res := while_amount_due sample_is_empty 2
               (fun _ => sample_inputs (Some 1)) 0 sample_debtor in
  outcome_of res = Returned tt /\
  amount_due (self_of res) = 0 /\
  closes (events_of res) = 2%nat /\
  table_runs_dry (events_of res) = false /\
  Table.count_available (banknotes (table_of (self_of res) right_arm))
  = 1%nat /\
  table_of (self_of res) left_arm = table_of sample_debtor left_arm.
Proof.
  exact (debt_is_paid_from_the_table sample_is_empty 2 sample_debtor 2
           (fun _ => sample_inputs (Some 1)) 0
           (sample_pose 3 100) right_arm 1
           eq_refl eq_refl eq_refl (le_n 2)).
Defined.

(* ================================================================== *)
(** ** Further properties: sessions *)

Lemma reset_tables_idempotent (s : Cashier) :
  reset_tables (reset_tables s) = reset_tables s.
Proof.
  unfold reset_tables; simpl.
  unfold set_banknotes_table_right, set_banknotes_table_left; simpl.
  assert (H : forall t,
            Table.reset_availability_for_all_banknotes
              (Table.reset_availability_for_all_banknotes t) =
            Table.reset_availability_for_all_banknotes t).
  { intros t. unfold Table.reset_availability_for_all_banknotes,
      set_banknotes; simpl.
    rewrite map_map. reflexivity. }
  rewrite !H. reflexivity.
Qed.

Lemma interact_settled (is_empty : BaxterPose -> bool) (fuel : nat)
    (inputs : nat -> Inputs) (s : Cashier) :
  amount_due s = 0 ->
  interact_with_customer is_empty fuel inputs s =
  (Returned tt, reset_tables s, [EvShowImage "normal_eyes.png"; EvSleep 1]).
Proof.
  intros H. rewrite interact_run, while_done by exact H. reflexivity.
Qed.

(** X4.  A settled cashier idles.  Once [amount_due] is 0, every further
    turn of the main loop only shows the normal eyes and resets the flags of
    both tables: no sensing, no arm command, and the object stays at the
    one reached by the first reset, whatever the inputs and the fuel. *)
Theorem settled_sessions_only_reset
    (is_empty : BaxterPose -> bool) (n : nat) :
  forall (s : Cashier) (fuel : nat) (inputs : nat -> nat -> Inputs)
         (j : nat),
    amount_due s = 0 ->
    sessions is_empty (S n) fuel inputs j s =
    (Returned tt, reset_tables s,
     concat (repeat [EvShowImage "normal_eyes.png"; EvSleep 1] (S n))).
Proof.
  induction n as [|n IH]; intros s fuel inputs j H.
  - cbn [sessions].
    rewrite (bind_returned _ _ s (interact_settled is_empty fuel _ s H)).
    reflexivity.
  - change (sessions is_empty (S (S n)) fuel inputs j)
      with (bind (interact_with_customer is_empty fuel (inputs j))
              (fun _ => sessions is_empty (S n) fuel inputs (S j))).
    rewrite (bind_returned _ _ s (interact_settled is_empty fuel _ s H)).
    rewrite (IH (reset_tables s) fuel inputs (S j) H).
    rewrite reset_tables_idempotent. reflexivity.
Qed.

Lemma settled_sessions_witness :
  sessions sample_is_empty 3 0 (fun _ _ => sample_inputs (Some 1)) 0
    (set_amount_due sample_owing 0) =
  (Returned tt, reset_tables (set_amount_due sample_owing 0),
   concat (repeat [EvShowImage "normal_eyes.png"; EvSleep 1] 3)).
Proof.
  exact (settled_sessions_only_reset sample_is_empty 2
           (set_amount_due sample_owing 0) 0
           (fun _ _ => sample_inputs (Some 1)) 0 eq_refl).
Defined.

(** A sensing pass is the action chosen by [select_action]. *)
Lemma loop_body_selects (is_empty : BaxterPose -> bool) (i : Inputs)
    (s : Cashier) (l r : UserPose) :
  0 < amount_due s ->
  reply_right_hand i = Some l -> reply_left_hand i = Some r ->
  exists evs,
    moves evs = [] /\
    loop_body is_empty i s =
    match select_action is_empty i
            (pose_of_reply l (clock_left_pose i))
            (pose_of_reply r (clock_right_pose i)) with
    | Wait => (Returned tt, s, evs)
    | CollectWith p a => after evs (take_money_from_customer i p a s)
    end.
Proof.
  intros Hpos Hl Hr.
  rewrite (loop_body_action is_empty i s l r Hpos Hl Hr). cbv zeta.
  unfold select_action.
  destruct (pose_is_outdated _ _ && pose_is_outdated _ _).
  { eexists; split; [|reflexivity]. reflexivity. }
  destruct (negb _ && is_pose_reachable_by_arm i _ right_arm).
  { eexists; split; [|reflexivity].
    rewrite moves_app, moves_asked. reflexivity. }
  destruct (negb _ && is_pose_reachable_by_arm i _ left_arm).
  { eexists; split; [|reflexivity].
    rewrite !moves_app, !moves_asked. reflexivity. }
  eexists; split; [|reflexivity].
  rewrite !moves_app, !moves_asked. reflexivity.
Qed.

Lemma idle_pass_run (is_empty : BaxterPose -> bool) (i : Inputs)
    (s : Cashier) :
  idle_pass is_empty i -> 0 < amount_due s ->
  exists s' evs,
    loop_body is_empty i s = (Returned tt, s', evs) /\
    amount_due s' = amount_due s /\
    customer_last_pose s' = customer_last_pose s /\
    banknotes_table_left s' = banknotes_table_left s /\
    banknotes_table_right s' = banknotes_table_right s.
Proof.
  intros (l & r & Hl & Hr & Hidle) Hpos.
  destruct (loop_body_selects is_empty i s l r Hpos Hl Hr) as (evs & _ & Hb).
  rewrite Hb.
  destruct (select_action is_empty i _ _) as [|p a].
  - exists s, evs. repeat split.
  - destruct Hidle as [Hw|Hs]; [discriminate|].
    rewrite (take_money_sentinel _ _ _ _ Hs).
    eexists. eexists. split; [reflexivity|]. repeat split.
Qed.

Lemma while_out_of_fuel (is_empty : BaxterPose -> bool)
    (inputs : nat -> Inputs) (k : nat) (s : Cashier) :
  amount_due s <> 0 ->
  while_amount_due is_empty 0 inputs k s = (OutOfFuel, s, []).
Proof.
  intros H. apply Z.eqb_neq in H. cbn [while_amount_due].
  cbv [bind get]. rewrite H. reflexivity.
Qed.

(** X5.  Idle passes never end a session.  As long as the customer owes
    money and every pass either collects nothing (both poses outdated, or
    neither within reach) or ends with the recogniser answering -1, the
    loop does not terminate: whatever the fuel it is still running, with
    [amount_due], the cached pose and both tables as at the start. *)
Theorem idle_passes_never_settle
    (is_empty : BaxterPose -> bool) (inputs : nat -> Inputs) (fuel : nat) :
  forall (k : nat) (s : Cashier),
    (forall j, idle_pass is_empty (inputs j)) ->
    0 < amount_due s ->
    let res := while_amount_due is_empty fuel inputs k s in
    outcome_of res = OutOfFuel /\
    amount_due (self_of res) = amount_due s /\
    customer_last_pose (self_of res) = customer_last_pose s /\
    banknotes_table_left (self_of res) = banknotes_table_left s /\
    banknotes_table_right (self_of res) = banknotes_table_right s.
Proof.
  induction fuel as [|fuel IH]; intros k s Hidle Hpos res; subst res.
  - rewrite while_out_of_fuel by lia. repeat split.
  - destruct (idle_pass_run is_empty (inputs k) s (Hidle k) Hpos)
      as (s' & evs & Hb & Ha & Hc & Hl & Hr).
    rewrite while_step by lia.
    rewrite (bind_returned _ _ s Hb).
    destruct (IH (S k) s' Hidle) as (Ho & Ha' & Hc' & Hl' & Hr').
    { rewrite Ha. exact Hpos. }
    repeat split; try exact Ho;
      unfold after, self_of; simpl fst; simpl snd; fold (self_of
        (while_amount_due is_empty fuel inputs (S k) s')); congruence.
Qed.

Lemma idle_passes_witness :
  outcome_of
    (while_amount_due sample_is_empty 7 (fun _ => sample_inputs (Some (-1)))
       0 sample_cashier) = OutOfFuel /\
  amount_due
    (self_of
       (while_amount_due sample_is_empty 7
          (fun _ => sample_inputs (Some (-1))) 0 sample_cashier)) = 3.
Proof.
  destruct (idle_passes_never_settle sample_is_empty
              (fun _ => sample_inputs (Some (-1))) 7 0 sample_cashier)
    as (Ho & Ha & _).
  - intros j. exists (sample_reply 3), (sample_reply 4).
    split; [reflexivity|]. split; [reflexivity|]. right. reflexivity.
  - reflexivity.
  - split; [exact Ho | exact Ha].
Defined.

(** X6.  One fresh pose is enough, also for the other hand.  A pass is
    skipped only when both poses are outdated: with the left-hand pose
    outdated but the right-hand pose fresh, a left-hand pose that is not
    empty and within reach of the right arm is still the one collected
    from. *)
Theorem outdated_pose_is_used_when_the_other_is_fresh
    (is_empty : BaxterPose -> bool) (i : Inputs) (s : Cashier)
    (l r : UserPose) :
  0 < amount_due s ->
  reply_right_hand i = Some l -> reply_left_hand i = Some r ->
  let left_pose := pose_of_reply l (clock_left_pose i) in
  let right_pose := pose_of_reply r (clock_right_pose i) in
  pose_is_outdated (clock_left_check i) left_pose = true ->
  pose_is_outdated (clock_right_check i) right_pose = false ->
  is_empty left_pose = false ->
  is_pose_reachable_by_arm i left_pose right_arm = true ->
  select_action is_empty i left_pose right_pose
    = CollectWith left_pose right_arm /\
  moves (events_of (loop_body is_empty i s)) = [(left_pose, right_arm)].
Proof.
  intros Hpos Hl Hr left_pose right_pose Hold Hfresh He Hreach.
  assert (Hsel : select_action is_empty i left_pose right_pose
                 = CollectWith left_pose right_arm).
  { unfold select_action. rewrite Hold, Hfresh, He, Hreach. reflexivity. }
  split; [exact Hsel|].
  destruct (loop_body_selects is_empty i s l r Hpos Hl Hr) as (evs & Hm & Hb).
  fold left_pose right_pose in Hb. rewrite Hsel in Hb. rewrite Hb.
  rewrite events_of_after, moves_app, Hm, take_money_moves. reflexivity.
Qed.

Lemma outdated_pose_witness :
  select_action sample_is_empty sample_inputs_old_left
    (sample_pose 3 90) (sample_pose 4 100)
    = CollectWith (sample_pose 3 90) right_arm /\
  moves (events_of (loop_body sample_is_empty sample_inputs_old_left
                      sample_cashier))
  = [(sample_pose 3 90, right_arm)].
Proof.
  exact (outdated_pose_is_used_when_the_other_is_fresh sample_is_empty
           sample_inputs_old_left sample_cashier
           (sample_reply 3) (sample_reply 4)
           eq_refl eq_refl eq_refl eq_refl eq_refl eq_refl eq_refl).
Defined.

(** X7.  Every recognised value other than -1 is booked.  Whatever integer
    the recogniser answers, unless it is -1, the collect subtracts it from
    [amount_due] (a value of 0, a negative one or one above the amount
    included), caches the pose and the arm for the change, announces a five
    for the value 5 and a one for every other value, and leaves both tables
    alone. *)
Theorem every_recognised_value_is_booked
    (i : Inputs) (pose : BaxterPose) (arm : Arm) (s : Cashier) (v : Z) :
  reply_banknote_amount i = Some v -> v <> -1 ->
  let r := take_money_from_customer i pose arm s in
  outcome_of r = Returned tt /\
  amount_due (self_of r) = amount_due s - v /\
  customer_last_pose (self_of r) = Some (pose, arm) /\
  shown_images (events_of r) =
    [(if v =? 5 then "five_bill_recognised.png"
      else "one_bill_recognised.png"); "normal_eyes.png"] /\
  closes (events_of r) = 1%nat /\
  In EvLeaveBanknoteToTheTable (events_of r) /\
  banknotes_table_left (self_of r) = banknotes_table_left s /\
  banknotes_table_right (self_of r) = banknotes_table_right s.
Proof.
  intros Hr Hv r. subst r.
  rewrite (take_money_valid _ _ _ _ _ Hr Hv).
  do 5 (split; [reflexivity|]).
  split; [|split; reflexivity].
  unfold events_of; simpl. tauto.
Qed.

Lemma every_recognised_value_witness :
  let r := take_money_from_customer (sample_inputs (Some 7))
             (sample_pose 3 100) right_arm sample_cashier in
  amount_due (self_of r) = -4 /\
  shown_images (events_of r) = ["one_bill_recognised.png"; "normal_eyes.png"].
Proof.
  pose proof (every_recognised_value_is_booked (sample_inputs (Some 7))
                (sample_pose 3 100) right_arm sample_cashier 7 eq_refl)
    as H.
  cbv zeta in *. destruct H as (_ & Ha & _ & Hi & _).
  - discriminate.
  - split; [exact Ha | exact Hi].
Defined.

(** X8.  A debt of [n] takes exactly [n] passes.  With a cached hand-over
    pose and [amount_due = -n], each pass of the loop is a dispense that
    books one unit: after [fuel] passes the amounts printed are the first
    [fuel] of -n, ..., -1; with less fuel than [n] the loop is still
    running and owes the rest, with [n] or more it has returned settled. *)
Theorem debt_takes_exactly_n_passes
    (is_empty : BaxterPose -> bool) (n : nat) :
  forall (s : Cashier) (fuel : nat) (inputs : nat -> Inputs) (k : nat)
         (p : BaxterPose) (a : Arm),
    amount_due s = - Z.of_nat n ->
    customer_last_pose s = Some (p, a) ->
    let res := while_amount_due is_empty fuel inputs k s in
    outcome_of res = (if (n <=? fuel)%nat then Returned tt else OutOfFuel) /\
    amount_due (self_of res) = - Z.of_nat (n - fuel) /\
    printed_amounts (events_of res) = firstn fuel (countdown n).
Proof.
  induction n as [|n IH]; intros s fuel inputs k p a Ha Hc res; subst res.
  - rewrite while_done by exact Ha.
    split; [reflexivity|]. split; [exact Ha|].
    rewrite firstn_nil. reflexivity.
  - destruct fuel as [|fuel].
    + rewrite while_out_of_fuel by lia. repeat split. exact Ha.
    + assert (Hneg : amount_due s < 0) by lia.
      destruct (pick_banknote_returns a s) as (_ & Hpa & Hpc & _).
      destruct (give_money_prints_no_amount s p a Hc) as [Hpr _].
      pose proof (give_money_run s p a Hc) as Hg.
      set (s1 := set_amount_due (self_of (pick_banknote_from_table a s))
                   (amount_due s + 1)) in *.
      assert (Hb : loop_body is_empty (inputs k) s =
                   (Returned tt, s1,
                    [EvPrintAmount (amount_due s)] ++
                    events_of (give_money_to_customer s))).
      { rewrite (loop_body_dispense is_empty _ s Hneg), Hg. reflexivity. }
      rewrite while_step by lia.
      rewrite (bind_returned _ _ s Hb).
      destruct (IH s1 fuel inputs (S k) p a) as (Ho & Hz & Hp).
      * subst s1; simpl. lia.
      * subst s1; simpl. rewrite Hpc. exact Hc.
      * split; [exact Ho|]. split; [exact Hz|].
        rewrite events_of_after, !printed_amounts_app, Hpr, Hp.
        cbn [printed_amounts app countdown firstn]. rewrite Ha.
        reflexivity.
Qed.

Lemma debt_takes_exactly_n_passes_witness :
  outcome_of (while_amount_due sample_is_empty 1
                (fun _ => sample_inputs (Some 1)) 0 sample_debtor)
  = OutOfFuel /\
  outcome_of (while_amount_due sample_is_empty 2
                (fun _ => sample_inputs (Some 1)) 0 sample_debtor)
  = Returned tt.
Proof.
  split.
  - exact (proj1 (debt_takes_exactly_n_passes sample_is_empty 2
                    sample_debtor 1 (fun _ => sample_inputs (Some 1)) 0
                    (sample_pose 3 100) right_arm eq_refl eq_refl)).
  - exact (proj1 (debt_takes_exactly_n_passes sample_is_empty 2
                    sample_debtor 2 (fun _ => sample_inputs (Some 1)) 0
                    (sample_pose 3 100) right_arm eq_refl eq_refl)).
Defined.

(* ================================================================== *)
(** ** Further properties: calibration *)

Lemma setup_moves_app (xs ys : list SetupEvent) :
  setup_moves (xs ++ ys) = setup_moves xs ++ setup_moves ys.
Proof.
  induction xs as [|e xs IH]; [reflexivity|].
  destruct e as [| | | | |e]; simpl; try exact IH.
  destruct e; simpl; rewrite ?IH; reflexivity.
Qed.

Lemma setup_moves_visit (arm : Arm) (bs : list Banknote) :
  setup_moves (calibration_visit arm bs) = map (fun b => (pose b, arm)) bs.
Proof.
  induction bs as [|b bs IH]; [reflexivity|].
  simpl. rewrite <- IH. reflexivity.
Qed.

Lemma init_tail_length (p : BaxterPose) (side : string) (num : Z) :
  length (tl (banknotes (Table.init p side num))) = Z.to_nat num.
Proof.
  unfold Table.init, Table._calculate_pose_of_remaining_poses.
  cbn [banknotes set_banknotes _number_of_remaining_banknotes _initial_pose].
  pose proof (append_remaining_row (Z.to_nat num) (Banknote_init p) []
                (Banknote_init p)) as H.
  cbn [app] in H. rewrite H.
  destruct (Z.to_nat num) as [|n]; [reflexivity|].
  cbn [row_from tl]. apply row_from_length.
Qed.

Lemma set_banknotes_on_table_moves (side : string) (p : BaxterPose)
    (num : Z) :
  setup_moves (snd (set_banknotes_on_table side p (Some num))) =
  map (fun b => (pose b, arm_of_side side))
    (tl (banknotes (Table.init p side num))).
Proof.
  unfold set_banknotes_on_table. cbn [snd].
  rewrite !setup_moves_app, setup_moves_visit.
  unfold calibration_dialogue. cbn [setup_moves app].
  rewrite app_nil_r. reflexivity.
Qed.

(** X9.  Calibration at start-up.  The left side is calibrated before the
    right one.  When both numbers are read, the object built is the one of
    [Cashier_init], and the arm was moved exactly to the synthesised
    banknote poses (never to the first, recorded one): those of the left
    table with the left arm, then those of the right table with the right
    arm, as many as the two numbers typed (none for a negative number).
    When a number cannot be read the construction ends there: no object,
    and if it was the left one the right side is never started. *)
Theorem setup_calibrates_left_then_right
    (left_pose : BaxterPose) (left_typed : option Z)
    (right_pose : BaxterPose) (right_typed : option Z) :
  let r := Cashier_setup left_pose left_typed right_pose right_typed in
  let visited side arm p num :=
    map (fun b => (pose b, arm)) (tl (banknotes (Table.init p side num))) in
  match left_typed, right_typed with
  | Some left_num, Some right_num =>
      fst r = Some (Cashier_init left_pose left_num right_pose right_num) /\
      setup_moves (snd r) =
        visited "left" left_arm left_pose left_num ++
        visited "right" right_arm right_pose right_num /\
      length (setup_moves (snd r)) =
        (Z.to_nat left_num + Z.to_nat right_num)%nat
  | Some left_num, None =>
      fst r = None /\
      setup_moves (snd r) = visited "left" left_arm left_pose left_num
  | None, _ =>
      fst r = None /\ setup_moves (snd r) = [] /\
      ~ In (SetupGetEndEffectorCurrentPose "right") (snd r)
  end.
Proof.
  intros r visited. subst r visited.
  destruct left_typed as [left_num|].
  - pose proof (set_banknotes_on_table_moves "left" left_pose left_num)
      as Hl.
    destruct right_typed as [right_num|].
    + pose proof (set_banknotes_on_table_moves "right" right_pose right_num)
        as Hr.
      unfold Cashier_setup.
      unfold set_banknotes_on_table in *. cbn [fst snd] in *.
      split; [reflexivity|].
      rewrite !setup_moves_app in *. cbn [setup_moves app] in *.
      assert (Hm : forall a b c d : list (BaxterPose * Arm),
                a = c -> b = d -> a ++ b = c ++ d) by (intros; subst; auto).
      split.
      * apply Hm; [exact Hl | exact Hr].
      * rewrite length_app, Hl, Hr, !length_map, !init_tail_length.
        reflexivity.
    + unfold Cashier_setup.
      unfold set_banknotes_on_table in *. cbn [fst snd] in *.
      split; [reflexivity|].
      rewrite !setup_moves_app in *. cbn [setup_moves app] in *.
      rewrite app_nil_r. exact Hl.
  - unfold Cashier_setup, set_banknotes_on_table. cbn [fst snd].
    split; [reflexivity|]. split; [reflexivity|].
    unfold calibration_dialogue. simpl.
    intros H. repeat (destruct H as [H|H]; [discriminate|]). exact H.
Qed.

(* ================================================================== *)
(** ** Further properties: the recogniser *)

Module RecogniserFacts.
Import Recogniser.

Lemma sleeps_app (xs ys : list RecEvent) :
  sleeps (xs ++ ys) = (sleeps xs + sleeps ys)%nat.
Proof. unfold sleeps. rewrite filter_app, length_app. reflexivity. Qed.

(** One turn before the deadline in which marker 1 is not found. *)
Lemma detect_loop_turn (fuel : nat) (timeout_start : float)
    (looks : nat -> Look) (k : nat) (f : Z) :
  before_deadline timeout_start looks k = true ->
  marker_1 (looks k) = false ->
  exists pre,
    sleeps pre = 1%nat /\
    detect_loop (S fuel) timeout_start looks k (Some f) =
    (fst (detect_loop fuel timeout_start looks (S k)
            (Some (if marker_5 (looks k) then 5 else f))),
     pre ++
     snd (detect_loop fuel timeout_start looks (S k)
            (Some (if marker_5 (looks k) then 5 else f)))).
Proof.
  unfold before_deadline. intros Hb H1.
  cbn [detect_loop is_None orb]. rewrite Hb, H1.
  destruct (marker_5 (looks k)).
  - destruct (detect_loop fuel timeout_start looks (S k) (Some 5))
      as [reply evs].
    exists [RecLookupTransform "ar_marker_5";
            RecLookupTransform "ar_marker_1";
            RecPrintException "ar_marker_1"; RecSleep].
    split; reflexivity.
  - destruct (detect_loop fuel timeout_start looks (S k) (Some f))
      as [reply evs].
    exists [RecLookupTransform "ar_marker_5";
            RecPrintException "ar_marker_5";
            RecLookupTransform "ar_marker_1";
            RecPrintException "ar_marker_1"; RecSleep].
    split; reflexivity.
Qed.

(** [n] such turns in a row. *)
Lemma detect_loop_turns (timeout_start : float) (looks : nat -> Look)
    (n : nat) :
  forall (fuel k : nat) (f : Z),
    (forall j, (j < n)%nat ->
       before_deadline timeout_start looks (k + j) = true /\
       marker_1 (looks (k + j)%nat) = false) ->
    exists pre,
      sleeps pre = n /\
      detect_loop (n + fuel) timeout_start looks k (Some f) =
      (fst (detect_loop fuel timeout_start looks (k + n)
              (Some (if seen_5 looks k n then 5 else f))),
       pre ++
       snd (detect_loop fuel timeout_start looks (k + n)
              (Some (if seen_5 looks k n then 5 else f)))).
Proof.
  induction n as [|n IH]; intros fuel k f H.
  - exists []. rewrite Nat.add_0_r. split; [reflexivity|].
    cbn [seen_5 Nat.add app].
    destruct (detect_loop fuel timeout_start looks k (Some f)); reflexivity.
  - destruct (H 0%nat) as [Hb H1]; [lia|]. rewrite Nat.add_0_r in Hb, H1.
    destruct (detect_loop_turn (n + fuel) timeout_start looks k f Hb H1)
      as (pre1 & Hs1 & Hd1).
    destruct (IH fuel (S k) (if marker_5 (looks k) then 5 else f))
      as (pre2 & Hs2 & Hd2).
    { intros j Hj. specialize (H (S j)).
      rewrite Nat.add_succ_r in H. apply H. lia. }
    exists (pre1 ++ pre2). split; [rewrite sleeps_app; lia|].
    change (S n + fuel)%nat with (S (n + fuel)).
    rewrite Hd1, Hd2. cbn [fst snd].
    rewrite Nat.add_succ_r, <- app_assoc. cbn [seen_5 Nat.add].
    destruct (marker_5 (looks k)); [|reflexivity].
    destruct (seen_5 looks (S k) n); reflexivity.
Qed.

Lemma detect_loop_range (timeout_start : float) (looks : nat -> Look)
    (fuel : nat) :
  forall (k : nat) (f : Z),
    f = -1 \/ f = 5 ->
    match fst (detect_loop fuel timeout_start looks k (Some f)) with
    | Some (BareInt z) => z = 1
    | Some (RecogniseBanknoteResponse found) =>
        found = Some (-1) \/ found = Some 5
    | None => True
    end.
Proof.
  induction fuel as [|fuel IH]; intros k f Hf.
  - cbn [detect_loop is_None orb].
    destruct (clock (looks k) <? timeout_start + timeout)%float; simpl;
      [exact I|]. destruct Hf; subst; auto.
  - cbn [detect_loop is_None orb].
    destruct (clock (looks k) <? timeout_start + timeout)%float;
      [|simpl; destruct Hf; subst; auto].
    destruct (marker_5 (looks k)), (marker_1 (looks k)); try reflexivity.
    + specialize (IH (S k) 5 (or_intror eq_refl)).
      destruct (detect_loop fuel timeout_start looks (S k) (Some 5)).
      exact IH.
    + specialize (IH (S k) f Hf).
      destruct (detect_loop fuel timeout_start looks (S k) (Some f)).
      exact IH.
Qed.

End RecogniserFacts.

(** X10.  What [detect] can answer.  Whenever it returns, the answer is
    either the bare integer 1 or a response whose amount is -1 or 5; the
    variable [found] is never [None], so the first half of the loop test
    never keeps the loop running. *)
Theorem detect_answers_one_five_or_minus_one
    (fuel : nat) (timeout_start : float) (looks : nat -> Recogniser.Look) :
  match fst (Recogniser.detect fuel timeout_start looks) with
  | Some (Recogniser.BareInt z) => z = 1
  | Some (Recogniser.RecogniseBanknoteResponse found) =>
      found = Some (-1) \/ found = Some 5
  | None => True
  end.
Proof.
  unfold Recogniser.detect.
  apply RecogniserFacts.detect_loop_range. left. reflexivity.
Qed.

(** X11.  A five is reported at the deadline only.  If marker 1 is not
    found in the first [n] turns, all begun before the deadline, and the
    clock read by the next loop test is not below the deadline, [detect]
    returns after exactly [n] sleeps with a response of 5 if marker 5 was
    found in at least one of those turns and of -1 otherwise: finding
    marker 5 does not end the loop. *)
Theorem detect_reports_five_at_the_deadline
    (fuel : nat) (timeout_start : float) (looks : nat -> Recogniser.Look)
    (n : nat) :
  (forall j, (j < n)%nat ->
     Recogniser.before_deadline timeout_start looks j = true /\
     Recogniser.marker_1 (looks j) = false) ->
  Recogniser.before_deadline timeout_start looks n = false ->
  (n <= fuel)%nat ->
  fst (Recogniser.detect fuel timeout_start looks) =
    Some (Recogniser.RecogniseBanknoteResponse
            (Some (if Recogniser.seen_5 looks 0 n then 5 else -1))) /\
  Recogniser.sleeps (snd (Recogniser.detect fuel timeout_start looks)) = n.
Proof.
  intros H Hend Hfuel.
  destruct (RecogniserFacts.detect_loop_turns timeout_start looks n
              (fuel - n) 0 (-1) H) as (pre & Hs & Hd).
  unfold Recogniser.detect.
  replace fuel with (n + (fuel - n))%nat at 1 2 by lia.
  rewrite Hd. cbn [fst snd Nat.add].
  unfold Recogniser.before_deadline in Hend.
  assert (Hstop : forall g found,
            Recogniser.detect_loop g timeout_start looks n (Some found) =
            (Some (Recogniser.RecogniseBanknoteResponse (Some found)), [])).
  { intros g found. destruct g; cbn [Recogniser.detect_loop
      Recogniser.is_None orb]; rewrite Hend; reflexivity. }
  rewrite Hstop. cbn [fst snd]. rewrite app_nil_r.
  split; [reflexivity | exact Hs].
Qed.

Lemma detect_reports_five_witness :
  fst (Recogniser.detect 5 100 Recogniser.sample_looks) =
    Some (Recogniser.RecogniseBanknoteResponse (Some 5)) /\
  Recogniser.sleeps (snd (Recogniser.detect 5 100 Recogniser.sample_looks))
  = 5%nat.
Proof.
  apply (detect_reports_five_at_the_deadline 5 100 Recogniser.sample_looks 5).
  - intros j Hj.
    do 5 (destruct j as [|j]; [split; reflexivity|]). lia.
  - reflexivity.
  - apply le_n.
Defined.

(** X12.  Marker 1 wins at once.  If marker 1 is found in turn [n], begun
    before the deadline, and in no earlier turn, [detect] returns the bare
    integer 1 in that turn, after [n] sleeps, whether or not marker 5 was
    found in that turn or before. *)
Theorem detect_returns_one_at_once
    (fuel : nat) (timeout_start : float) (looks : nat -> Recogniser.Look)
    (n : nat) :
  (forall j, (j < n)%nat ->
     Recogniser.before_deadline timeout_start looks j = true /\
     Recogniser.marker_1 (looks j) = false) ->
  Recogniser.before_deadline timeout_start looks n = true ->
  Recogniser.marker_1 (looks n) = true ->
  (n < fuel)%nat ->
  fst (Recogniser.detect fuel timeout_start looks) =
    Some (Recogniser.BareInt 1) /\
  Recogniser.sleeps (snd (Recogniser.detect fuel timeout_start looks)) = n.
Proof.
  intros H Hb H1 Hfuel.
  destruct (RecogniserFacts.detect_loop_turns timeout_start looks n
              (fuel - n) 0 (-1) H) as (pre & Hs & Hd).
  unfold Recogniser.detect.
  replace fuel with (n + (fuel - n))%nat at 1 2 by lia.
  rewrite Hd. cbn [fst snd Nat.add].
  unfold Recogniser.before_deadline in Hb.
  destruct (fuel - n)%nat as [|g] eqn:Hg; [lia|].
  cbn [Recogniser.detect_loop Recogniser.is_None orb]. rewrite Hb, H1.
  destruct (Recogniser.marker_5 (looks n)); cbn [fst snd];
    rewrite RecogniserFacts.sleeps_app; unfold Recogniser.sleeps at 2;
    simpl; split; try reflexivity; lia.
Qed.

Lemma detect_returns_one_witness :
  fst (Recogniser.detect 4 100
         (fun k => Recogniser.mkLook 101 true (2 <=? k)%nat)) =
    Some (Recogniser.BareInt 1) /\
  Recogniser.sleeps
    (snd (Recogniser.detect 4 100
            (fun k => Recogniser.mkLook 101 true (2 <=? k)%nat))) = 2%nat.
Proof.
  apply (detect_returns_one_at_once 4 100
           (fun k => Recogniser.mkLook 101 true (2 <=? k)%nat) 2).
  - intros j Hj.
    do 2 (destruct j as [|j]; [split; reflexivity|]). lia.
  - reflexivity.
  - reflexivity.
  - lia.
Defined.
